(** * DNS-Bench: a model of [main.py] and its specification

    [main.py] measures how long a list of DNS servers takes to answer a
    forward query, computes the mean and the population standard deviation
    of the measured times of each server, and prints a table.

    The development embeds the two functions of the program,
    [benchmark_dns_servers] and [display_results], as Rocq functions:

    - the DNS library and the clock are the environment.  A [network] says,
      for the k-th resolver the program creates and for the k-th reverse
      and the k-th forward resolution it issues, whether the call returns
      or raises, and how long a forward call takes; the [world] holds the
      clock, the call counters and what was printed;
    - statements run in a state-and-exception monad [M]; [try ... except
      Exception] is [try_except];
    - Python floats are idealised as real numbers: rounding is left out, so
      the statistics are the exact ones;
    - a Python [dict] is an association list in insertion order. *)

From Stdlib Require Import Reals Lra Lia ZArith List String Ascii Bool.
Import ListNotations.

Set Implicit Arguments.

(** ** Python values and dictionaries *)

(** The values the program stores in a per-server record. *)
Inductive pyval : Type :=
| VStr (s : string)
| VFloat (x : R)
| VBool (b : bool)
| VList (l : list R).

(** A [dict] with string keys.  Iteration order is insertion order, and
    assigning to a key that is present keeps the key where it is. *)
Definition dict (V : Type) : Type := list (string * V).

Fixpoint dict_get (V : Type) (d : dict V) (k : string) : option V :=
  match d with
  | [] => None
  | (k', v) :: rest => if String.eqb k' k then Some v else dict_get rest k
  end.

(** [d.get(k, default)] *)
Definition dict_get_default (V : Type) (d : dict V) (k : string) (default : V) : V :=
  match dict_get d k with
  | Some v => v
  | None => default
  end.

(** [d[k] = v] *)
Fixpoint dict_set (V : Type) (d : dict V) (k : string) (v : V) : dict V :=
  match d with
  | [] => [(k, v)]
  | (k', v') :: rest =>
      if String.eqb k' k then (k', v) :: rest else (k', v') :: dict_set rest k v
  end.

Definition dict_keys (V : Type) (d : dict V) : list string := map fst d.

(** ** The environment: exceptions, the network and the world *)

(** What the resolver raises on failure is an instance of [Exception];
    [message] is its [str()]. *)
Record exn : Type := Exception { message : string }.

Inductive outcome (A : Type) : Type :=
| Returned (a : A)
| Raised (e : exn).

Arguments Returned {A} a.
Arguments Raised {A} e.

(** The DNS library as an oracle, indexed by the number of calls of each
    kind issued so far.
    - [new_resolver k] is the outcome of the k-th [Resolver()];
    - [set_nameservers k nameserver] is the outcome of the assignment
      [resolver.nameservers = [nameserver]] on the k-th resolver;
    - [resolve_address k nameserver address] is the outcome of
      [str(resolver.resolve_address(address)[0])];
    - [resolve k nameserver domain] is how many seconds the call
      [resolver.resolve(domain)] takes and whether it returns. *)
Record network : Type := {
  new_resolver : nat -> outcome unit;
  set_nameservers : nat -> string -> outcome unit;
  resolve_address : nat -> string -> string -> outcome string;
  resolve : nat -> string -> string -> R * outcome unit
}.

Record world : Type := {
  clock : R;
  resolvers_made : nat;
  reverse_calls : nat;
  forward_calls : nat;
  stdout : list string
}.

(** ** The monad of statements *)

Definition M (A : Type) : Type := world -> outcome A * world.

Definition ret (A : Type) (a : A) : M A := fun w => (Returned a, w).

Definition bind (A B : Type) (m : M A) (f : A -> M B) : M B :=
  fun w =>
    match m w with
    | (Returned a, w') => f a w'
    | (Raised e, w') => (Raised e, w')
    end.

(** [try: body / except Exception as e: handler e] *)
Definition try_except (A : Type) (body : M A) (handler : exn -> M A) : M A :=
  fun w =>
    match body w with
    | (Returned a, w') => (Returned a, w')
    | (Raised e, w') => handler e w'
    end.

Declare Scope py_scope.
Delimit Scope py_scope with py.
Notation "x <- m ;; k" := (bind m (fun x => k))
  (at level 61, m at next level, right associativity) : py_scope.
Notation "' pat <- m ;; k" := (bind m (fun x => match x with pat => k end))
  (at level 61, pat pattern, m at next level, right associativity) : py_scope.
Notation "m ;; k" := (bind m (fun _ => k))
  (at level 61, right associativity) : py_scope.

Local Open Scope py_scope.
Local Open Scope string_scope.

(** [time.time()] *)
Definition time_time : M R := fun w => (Returned (clock w), w).

(** [print(s)] *)
Definition print (s : string) : M unit :=
  fun w =>
    (Returned tt,
     {| clock := clock w; resolvers_made := resolvers_made w;
        reverse_calls := reverse_calls w;
        forward_calls := forward_calls w; stdout := (stdout w ++ [s])%list |}).

(** [Resolver()]: the value is the resolver, known by its number. *)
Definition Resolver (net : network) : M nat :=
  fun w =>
    (match new_resolver net (resolvers_made w) with
     | Returned _ => Returned (resolvers_made w)
     | Raised e => Raised e
     end,
     {| clock := clock w; resolvers_made := S (resolvers_made w);
        reverse_calls := reverse_calls w;
        forward_calls := forward_calls w; stdout := stdout w |}).

(** [resolver.nameservers = [nameserver]] *)
Definition resolver_set_nameservers (net : network) (resolver : nat)
    (nameserver : string) : M unit :=
  fun w => (set_nameservers net resolver nameserver, w).

(** [str(resolver.resolve_address(address)[0])], the resolver's only
    nameserver being [nameserver]. *)
Definition resolver_resolve_address (net : network) (nameserver address : string)
  : M string :=
  fun w =>
    (resolve_address net (reverse_calls w) nameserver address,
     {| clock := clock w; resolvers_made := resolvers_made w;
        reverse_calls := S (reverse_calls w);
        forward_calls := forward_calls w; stdout := stdout w |}).

(** [resolver.resolve(domain)]: the clock advances by the time the call
    takes, whether it returns or raises. *)
Definition resolver_resolve (net : network) (nameserver domain : string) : M unit :=
  fun w =>
    let '(seconds, o) := resolve net (forward_calls w) nameserver domain in
    (o,
     {| clock := (clock w + seconds)%R; resolvers_made := resolvers_made w;
        reverse_calls := reverse_calls w;
        forward_calls := S (forward_calls w); stdout := stdout w |}).

(** ** [benchmark_dns_servers] *)

(** Lines 38-45: the name of the server, and the failure counter. *)
Definition resolve_name (net : network) (server : string) (failure_count : Z)
  : M (string * Z) :=
  try_except
    (dns_name <- resolver_resolve_address net server server ;;
     print ("Testing Response Times from " ++ dns_name) ;;
     ret (dns_name, failure_count))
    (fun e =>
       print ("Error resolving name for server " ++ server ++ ": " ++ message e) ;;
       ret ("Unknown", (failure_count + 1)%Z)).

(** Lines 48-55: one forward query. *)
Definition query_once (net : network) (server domain : string)
    (times : list R) (failure_count : Z) : M (list R * Z) :=
  start <- time_time ;;
  try_except
    (resolver_resolve net server domain ;;
     now <- time_time ;;
     let elapsed := (now - start)%R in
     ret ((times ++ [(elapsed * 1000)%R])%list, failure_count))
    (fun e =>
       print ("Error querying " ++ domain ++ " on " ++ server ++ ": " ++ message e) ;;
       ret (times, (failure_count + 1)%Z)).

(** Lines 47-58: [for _ in range(num_queries)], [iterations] being what
    is left of the range. *)
Fixpoint query_loop (net : network) (server domain : string) (iterations : nat)
    (times : list R) (failure_count : Z) : M (list R * Z) :=
  match iterations with
  | O => ret (times, failure_count)
  | S rest =>
      '(times', failure_count') <- query_once net server domain times failure_count ;;
      if (2 <? failure_count')%Z then
        print ("More than 2 Errors attempting to query " ++ server ++ ". Skipping.") ;;
        ret (times', failure_count')
      else query_loop net server domain rest times' failure_count'
  end.

(** [len(range(num_queries))] *)
Definition range_len (num_queries : Z) : nat := Z.to_nat num_queries.

(** [sum(xs)]: from 0, left to right. *)
Definition py_sum (xs : list R) : R := fold_left Rplus xs 0%R.

(** [x ** y] on floats, for a base that is not negative and a positive
    exponent (a negative base gives a complex number in Python, and is not
    modelled: the variance is never negative, see [variance_nonneg]). *)
Definition float_pow (x y : R) : R :=
  if Req_dec_T x 0 then 0%R else Rpower x y.

(** Lines 62-64. *)
Definition mean_of (times : list R) : R :=
  (py_sum times / INR (List.length times))%R.

Definition variance_of (times : list R) : R :=
  let mean := mean_of times in
  (py_sum (map (fun x => (x - mean) ^ 2) times) / INR (List.length times))%R.

Definition stdev_of (times : list R) : R :=
  float_pow (variance_of times) 0.5.

(** Lines 60-77: the record of one server. *)
Definition make_result (dns_name : string) (times : list R) : dict pyval :=
  match times with
  | _ :: _ =>
      let mean := mean_of times in
      let stdev := stdev_of times in
      [("times", VList times); ("mean", VFloat mean); ("stdev", VFloat stdev);
       ("name", VStr dns_name); ("error", VBool false)]
  | [] =>
      [("name", VStr dns_name); ("error", VBool true)]
  end.

(** What one pass of the outer loop computes before the record is built:
    the name, the samples and the failure counter. *)
Record pass : Type := {
  pass_name : string;
  pass_times : list R;
  pass_failure_count : Z
}.

(** Lines 35-58: the measurements, once the resolver is there. *)
Definition measure_server (net : network) (server domain : string) (num_queries : Z)
  : M pass :=
  let times := [] in
  let failure_count := 0%Z in
  '(dns_name, failure_count) <- resolve_name net server failure_count ;;
  '(times, failure_count) <-
     query_loop net server domain (range_len num_queries) times failure_count ;;
  ret {| pass_name := dns_name; pass_times := times;
         pass_failure_count := failure_count |}.

(** Lines 33-58.  The resolver is created and given its nameserver
    outside of every [try]: what these two statements raise leaves the
    function. *)
Definition benchmark_pass (net : network) (server domain : string) (num_queries : Z)
  : M pass :=
  resolver <- Resolver net ;;
  resolver_set_nameservers net resolver server ;;
  measure_server net server domain num_queries.

Definition result_of_pass (p : pass) : dict pyval :=
  make_result (pass_name p) (pass_times p).

(** Lines 32-77: the outer loop over what is left of [servers]. *)
Fixpoint for_servers (net : network) (servers : list string) (domain : string)
    (num_queries : Z) (results : dict (dict pyval)) : M (dict (dict pyval)) :=
  match servers with
  | [] => ret results
  | server :: rest =>
      p <- benchmark_pass net server domain num_queries ;;
      for_servers net rest domain num_queries
        (dict_set results server (result_of_pass p))
  end.

Definition benchmark_dns_servers (net : network) (servers : list string)
    (domain : string) (num_queries : Z) : M (dict (dict pyval)) :=
  for_servers net servers domain num_queries [].

(** ** [display_results] *)

(** Truth value of a value, as [not] and [or] test it. *)
Definition truthy (v : pyval) : bool :=
  match v with
  | VStr s => negb (String.eqb s "")
  | VFloat x => if Req_dec_T x 0 then false else true
  | VBool b => b
  | VList l => match l with [] => false | _ :: _ => true end
  end.

(** [sep.join(parts)] *)
Fixpoint join (sep : string) (parts : list string) : string :=
  match parts with
  | [] => ""
  | [p] => p
  | p :: rest => p ++ sep ++ join sep rest
  end.

Fixpoint spaces (n : nat) : string :=
  match n with
  | O => ""
  | S k => String " "%char (spaces k)
  end.

(** The fill [' '], alignment [>] and width of a format specification:
    spaces in front up to [width] characters, nothing cut. *)
Definition rjust (width : nat) (s : string) : string :=
  spaces (width - String.length s) ++ s.

Record column : Type := { header : string; justify : string }.

Record table : Type := {
  show_header : bool;
  header_style : string;
  columns : list column;
  rows : list (list string)
}.

Definition add_column (t : table) (h j : string) : table :=
  {| show_header := show_header t; header_style := header_style t;
     columns := (columns t ++ [{| header := h; justify := j |}])%list;
     rows := rows t |}.

Definition add_row (t : table) (cells : list string) : table :=
  {| show_header := show_header t; header_style := header_style t;
     columns := columns t; rows := (rows t ++ [cells])%list |}.

Section Display.

(** Python's conversions of a float to text are built-ins and stay
    parameters: [repr_float x] is [str(x)] for a float other than zero,
    [format_fixed p x] is [format(x, ".pf")], the fixed-point notation
    with [p] decimal places. *)
Variable repr_float : R -> string.
Variable format_fixed : nat -> R -> string.

(** [str(x)] for a float: [str(0.0)] is ["0.0"]. *)
Definition float_str (x : R) : string :=
  if Req_dec_T x 0 then "0.0" else repr_float x.

(** [str(v)] *)
Definition py_str (v : pyval) : string :=
  match v with
  | VStr s => s
  | VFloat x => float_str x
  | VBool b => if b then "True" else "False"
  | VList l => "[" ++ join ", " (map float_str l) ++ "]"
  end.

(** Line 84. *)
Definition red_string (input : pyval) : string :=
  "[red]" ++ py_str input ++ "[/red]".

(** [f"{time: >3.0f}"] *)
Definition format_time (time : R) : string := rjust 3 (format_fixed 0 time).

(** Lines 109-126: the cells of one row.  [None] stands for a record
    that holds, where the row is not an error row, a value of another
    type than the docstring declares ([times] a list of floats, [mean]
    and [stdev] floats, [name] a string); what Python and the table
    library do with such a record is not modelled. *)
Definition display_row (server : string) (data : dict pyval)
  : option (list string) :=
  let name := dict_get_default data "name" (VStr "Unknown") in
  let times := dict_get_default data "times" (VList []) in
  let mean := dict_get_default data "mean" (VFloat 0) in
  let stddev := dict_get_default data "stdev" (VFloat 0) in
  let error := dict_get_default data "error" (VBool false) in
  if negb (truthy times) || truthy error then
    Some [red_string (VStr server); red_string name;
          red_string (VStr "Error on query attempt");
          red_string mean; red_string stddev]
  else
    match name, times, mean, stddev with
    | VStr name, VList times, VFloat mean, VFloat stddev =>
        let times_str := join "," (map format_time times) in
        Some [server; name; times_str; format_fixed 1 mean; format_fixed 1 stddev]
    | _, _, _, _ => None
    end.

(** Lines 108-126: the loop over [results.items()]. *)
Fixpoint add_rows (items : list (string * dict pyval)) (t : table) : option table :=
  match items with
  | [] => Some t
  | (server, data) :: rest =>
      match display_row server data with
      | Some cells => add_rows rest (add_row t cells)
      | None => None
      end
  end.

(** Lines 99-106. *)
Definition empty_table : table :=
  let t := {| show_header := true; header_style := "bold magenta";
              columns := []; rows := [] |} in
  let t := add_column t "DNS Server" "left" in
  let t := add_column t "DNS Name" "left" in
  let t := add_column t "Response Times (ms)" "right" in
  let t := add_column t "Average (ms)" "center" in
  add_column t "Std Dev (ms)" "center".

(** The table [display_results] hands to the console. *)
Definition display_results (results : dict (dict pyval)) : option table :=
  add_rows results empty_table.

End Display.

(** ** The specification's notions *)

(** The samples and the error flag of a record, as a reader of the result
    sees them. *)
Definition samples_of (data : dict pyval) : list R :=
  match dict_get data "times" with
  | Some (VList l) => l
  | _ => []
  end.

(** The sum of a list of numbers. *)
Fixpoint total (xs : list R) : R :=
  match xs with
  | [] => 0%R
  | x :: rest => (x + total rest)%R
  end.

(** The arithmetic average: the sum divided by the count. *)
Definition arithmetic_mean (xs : list R) : R :=
  (total xs / INR (List.length xs))%R.

(** The population standard deviation: the square root of the mean of the
    squared deviations from the mean, the divisor being the count. *)
Definition population_stdev (xs : list R) : R :=
  sqrt (total (map (fun x => Rsqr (x - arithmetic_mean xs)) xs)
        / INR (List.length xs)).

(** The resolver a pass from [w] creates can be created and accepts the
    server as its nameserver. *)
Definition setup_succeeds (net : network) (server : string) (w : world) : Prop :=
  new_resolver net (resolvers_made w) = Returned tt
  /\ set_nameservers net (resolvers_made w) server = Returned tt.

(** The world once the resolver of a pass is there. *)
Definition after_setup (w : world) : world :=
  {| clock := clock w; resolvers_made := S (resolvers_made w);
     reverse_calls := reverse_calls w; forward_calls := forward_calls w;
     stdout := stdout w |}.

(** The name the k-th reverse call leaves in [dns_name]. *)
Definition reverse_name (net : network) (server : string) (k : nat) : string :=
  match resolve_address net k server server with
  | Returned dns_name => dns_name
  | Raised _ => "Unknown"
  end.

(** Whether the k-th forward call fails. *)
Definition forward_failed (net : network) (server domain : string) (k : nat) : bool :=
  match snd (resolve net k server domain) with
  | Returned _ => false
  | Raised _ => true
  end.

(** Whether the k-th reverse call fails. *)
Definition reverse_failed (net : network) (server : string) (k : nat) : bool :=
  match resolve_address net k server server with
  | Returned _ => false
  | Raised _ => true
  end.

Definition Z_of_bool (b : bool) : Z := if b then 1%Z else 0%Z.

(** The number of failures among the [count] forward calls from the
    [from]-th on. *)
Fixpoint failures (net : network) (server domain : string) (from count : nat) : Z :=
  match count with
  | O => 0%Z
  | S c =>
      (Z_of_bool (forward_failed net server domain from)
       + failures net server domain (S from) c)%Z
  end.

(** What the query loop does, from a counter that has not passed the
    threshold: it returns, and [attempts] forward calls were issued. *)
Definition loop_outcome (net : network) (server domain : string) (iterations : nat)
    (times : list R) (failure_count : Z) (w : world)
    (times' : list R) (failure_count' : Z) (w' : world) (attempts : nat) : Prop :=
  forward_calls w' = forward_calls w + attempts
  /\ reverse_calls w' = reverse_calls w
  /\ attempts <= iterations
  /\ failure_count'
     = (failure_count + failures net server domain (forward_calls w) attempts)%Z
  /\ (exists new, times' = (times ++ new)%list
        /\ (Z.of_nat (List.length new)
            + failures net server domain (forward_calls w) attempts
            = Z.of_nat attempts)%Z)
  /\ (forall i, i < attempts ->
        (failure_count + failures net server domain (forward_calls w) i <= 2)%Z)
  /\ ((failure_count' <= 2)%Z -> attempts = iterations)
  /\ (failure_count' <= 3)%Z.

(** A cell in the error style. *)
Definition is_red (cell : string) : Prop :=
  exists text, cell = "[red]" ++ text ++ "[/red]".

(** A record whose error flag is true or whose samples are empty. *)
Definition marked_failed (data : dict pyval) : Prop :=
  dict_get data "error" = Some (VBool true)
  \/ dict_get data "times" = None
  \/ dict_get data "times" = Some (VList []).

(** A record with a name, samples, their mean and standard deviation, and
    an error flag that is false. *)
Definition measured (data : dict pyval) (dns_name : string) (samples : list R)
    (mean stdev : R) : Prop :=
  dict_get data "name" = Some (VStr dns_name)
  /\ dict_get data "times" = Some (VList samples)
  /\ samples <> []
  /\ dict_get data "mean" = Some (VFloat mean)
  /\ dict_get data "stdev" = Some (VFloat stdev)
  /\ dict_get data "error" = Some (VBool false).

(** A row in the error style: five cells, all of them red, the first
    holding the server and the third the error marker. *)
Definition error_row (server : string) (row : list string) : Prop :=
  List.length row = 5
  /\ Forall is_red row
  /\ nth_error row 0 = Some ("[red]" ++ server ++ "[/red]")
  /\ nth_error row 2 = Some "[red]Error on query attempt[/red]".

Definition all_spaces (pad : string) : Prop :=
  forall c, In c (list_ascii_of_string pad) -> c = " "%char.

(** [cell] is [text] padded to [width]: [text] after spaces only, as many
    as [text] is shorter than [width], and none when it is not. *)
Definition padded_to (width : nat) (text cell : string) : Prop :=
  exists pad,
    cell = pad ++ text
    /\ all_spaces pad
    /\ String.length cell = Nat.max width (String.length text).

(** ** A run of the program used in the examples

    Three servers; the reverse lookup of the second one fails, and so do
    all its forward queries; the first server is listed twice. *)
Definition demo_net : network := {|
  new_resolver := fun _ => Returned tt;
  set_nameservers := fun _ _ => Returned tt;
  resolve_address := fun _ nameserver _ =>
    if String.eqb nameserver "0.0.0.0" then Raised (Exception "timeout")
    else Returned "dns.google.";
  resolve := fun k nameserver _ =>
    if String.eqb nameserver "0.0.0.0" then (2%R, Raised (Exception "timeout"))
    else (0.01%R, Returned tt)
|}.

Definition world0 : world :=
  {| clock := 0; resolvers_made := 0; reverse_calls := 0; forward_calls := 0;
     stdout := [] |}.

Definition demo_servers : list string := ["8.8.8.8"; "0.0.0.0"; "8.8.8.8"].

(** The scenarios of the specification: one server that answers three
    queries in 10, 20 and 30 milliseconds, and one server whose forward
    queries all fail while its reverse lookup succeeds. *)
Definition steady_net : network := {|
  new_resolver := fun _ => Returned tt;
  set_nameservers := fun _ _ => Returned tt;
  resolve_address := fun _ _ _ => Returned "dns.google.";
  resolve := fun k _ _ =>
    match k with
    | 0 => (0.01%R, Returned tt)
    | 1 => (0.02%R, Returned tt)
    | _ => (0.03%R, Returned tt)
    end
|}.

Definition failing_net : network := {|
  new_resolver := fun _ => Returned tt;
  set_nameservers := fun _ _ => Returned tt;
  resolve_address := fun _ _ _ => Returned "sinkhole.";
  resolve := fun _ _ _ => (5%R, Raised (Exception "timeout"))
|}.

(** A network whose resolvers refuse a nameserver that is not an address,
    and answer every query otherwise. *)
Definition strict_net : network := {|
  new_resolver := fun _ => Returned tt;
  set_nameservers := fun _ nameserver =>
    if String.eqb nameserver "not-an-ip"
    then Raised (Exception "nameserver not-an-ip is not an IP address or valid https URL")
    else Returned tt;
  resolve_address := fun _ _ _ => Returned "dns.google.";
  resolve := fun _ _ _ => (0.01%R, Returned tt)
|}.

(** Stand-ins for Python's float formatting in the examples, which are
    about the layout of the table: every float reads as ten. *)
Definition demo_repr_float (x : R) : string := "10.0".

Definition demo_format_fixed (places : nat) (x : R) : string :=
  match places with
  | O => "10"
  | S _ => "10.0"
  end.

(** ** What a pass leaves behind, read off the network *)

(** How long the k-th forward call takes, in seconds. *)
Definition duration (net : network) (server domain : string) (k : nat) : R :=
  fst (resolve net k server domain).

(** The [str()] of what the k-th forward call raises. *)
Definition failure_text (net : network) (server domain : string) (k : nat) : string :=
  match snd (resolve net k server domain) with
  | Returned _ => ""
  | Raised e => message e
  end.

Definition succeeded (net : network) (server domain : string) (k : nat) : bool :=
  negb (forward_failed net server domain k).

(** The durations, in milliseconds, of the calls that returned among the
    [count] forward calls from the [from]-th on. *)
Definition expected_samples (net : network) (server domain : string)
    (from count : nat) : list R :=
  map (fun k => (duration net server domain k * 1000)%R)
      (filter (succeeded net server domain) (seq from count)).

(** Line 54. *)
Definition query_error_line (net : network) (server domain : string) (k : nat)
  : string :=
  "Error querying " ++ domain ++ " on " ++ server ++ ": "
  ++ failure_text net server domain k.

Definition query_error_lines (net : network) (server domain : string)
    (from count : nat) : list string :=
  map (query_error_line net server domain)
      (filter (forward_failed net server domain) (seq from count)).

(** Lines 41 and 43. *)
Definition reverse_line (net : network) (server : string) (k : nat) : string :=
  match resolve_address net k server server with
  | Returned dns_name => "Testing Response Times from " ++ dns_name
  | Raised e => "Error resolving name for server " ++ server ++ ": " ++ message e
  end.

(** Line 57. *)
Definition skip_line (server : string) : string :=
  "More than 2 Errors attempting to query " ++ server ++ ". Skipping.".

(** What the query loop returns and the world it leaves, in terms of the
    answers of the network to the calls it issued. *)
Definition loop_trace (net : network) (server domain : string) (iterations : nat)
    (times : list R) (failure_count : Z) (w : world)
    (times' : list R) (failure_count' : Z) (w' : world) (attempts : nat) : Prop :=
  forward_calls w' = forward_calls w + attempts
  /\ attempts <= iterations
  /\ reverse_calls w' = reverse_calls w
  /\ times' = (times ++ expected_samples net server domain (forward_calls w) attempts)%list
  /\ failure_count'
     = (failure_count + failures net server domain (forward_calls w) attempts)%Z
  /\ stdout w'
     = (stdout w ++ query_error_lines net server domain (forward_calls w) attempts
        ++ (if (2 <? failure_count')%Z then [skip_line server] else []))%list
  /\ clock w'
     = (clock w + total (map (duration net server domain)
                           (seq (forward_calls w) attempts)))%R.

(** The servers of a list in the order of their first occurrence, those
    in [seen] left out. *)
Fixpoint distinct (seen servers : list string) : list string :=
  match servers with
  | [] => []
  | server :: rest =>
      if existsb (String.eqb server) seen then distinct seen rest
      else server :: distinct (server :: seen) rest
  end.

(** ** The program run as a script (lines 132-155) *)

Definition main_servers : list string :=
  ["8.8.8.8"; "8.8.4.4"; "1.1.1.1"; "1.0.0.1"; "208.67.222.222";
   "208.67.220.220"; "4.2.2.1"; "4.2.2.2"; "4.2.2.3"; "4.2.2.4"; "4.2.2.5";
   "4.2.2.6"; "209.244.0.3"; "209.244.0.4"; "0.0.0.0"; "205.171.3.65";
   "192.168.1.190"].

(** The default of the parameter [num_queries] (line 13). *)
Definition default_num_queries : Z := 8.

Section Main.

Variable repr_float : R -> string.
Variable format_fixed : nat -> R -> string.

(** Lines 154-155; the value is the table handed to the console. *)
Definition main (net : network) : M (option table) :=
  results <- benchmark_dns_servers net main_servers "apple.com" default_num_queries ;;
  ret (display_results repr_float format_fixed results).

End Main.

(** * Proofs *)

Unset Implicit Arguments.

(** Runs the program on a closed input, leaving the arithmetic of the
    reals alone. *)
Ltac run_program :=
  cbv -[Rplus Rminus Rmult Rdiv Rinv Ropp IZR INR Rpower Req_dec_T pow sqrt Rsqr];
  try reflexivity.

(** ** Dictionaries *)

Lemma dict_get_set_same (V : Type) (d : dict V) k v :
  dict_get (dict_set d k v) k = Some v.
Proof.
  induction d as [|[k' v'] d IH]; simpl.
  - now rewrite String.eqb_refl.
  - destruct (String.eqb k' k) eqn:E; simpl; rewrite E; auto.
Qed.

Lemma dict_get_set_other (V : Type) (d : dict V) k k' v :
  k <> k' -> dict_get (dict_set d k v) k' = dict_get d k'.
Proof.
  intros Hne. induction d as [|[k0 v0] d IH]; simpl.
  - destruct (String.eqb_spec k k'); [contradiction | reflexivity].
  - destruct (String.eqb_spec k0 k) as [->|Hk]; simpl.
    + destruct (String.eqb_spec k k'); [contradiction | reflexivity].
    + now rewrite IH.
Qed.

Lemma dict_get_in_keys (V : Type) (d : dict V) k :
  In k (dict_keys d) <-> exists v, dict_get d k = Some v.
Proof.
  induction d as [|[k0 v0] d IH]; simpl.
  - split; [tauto | intros [v H]; discriminate].
  - destruct (String.eqb_spec k0 k) as [->|Hk].
    + split; eauto.
    + rewrite <- IH. tauto.
Qed.

Lemma dict_keys_set_in (V : Type) (d : dict V) k v x :
  In x (dict_keys (dict_set d k v)) <-> x = k \/ In x (dict_keys d).
Proof.
  induction d as [|[k0 v0] d IH]; simpl.
  - intuition.
  - destruct (String.eqb_spec k0 k) as [->|Hk]; simpl.
    + intuition.
    + rewrite IH. intuition.
Qed.

Lemma dict_keys_set_NoDup (V : Type) (d : dict V) k v :
  NoDup (dict_keys d) -> NoDup (dict_keys (dict_set d k v)).
Proof.
  induction d as [|[k0 v0] d IH]; simpl; intros Hnd.
  - constructor; [intros [] | constructor].
  - inversion Hnd as [|? ? Hnotin Hnd']; subst.
    destruct (String.eqb_spec k0 k) as [->|Hk]; simpl.
    + now constructor.
    + constructor; [| now apply IH].
      rewrite dict_keys_set_in. intros [Heq | Hin]; [congruence | contradiction].
Qed.

(** ** Running statements *)

(** One forward query always returns: a sample more, or a failure more. *)
Lemma query_once_run net server domain times failure_count w :
  exists w',
    query_once net server domain times failure_count w
    = (Returned
         (if forward_failed net server domain (forward_calls w) then times
          else (times ++ [((clock w + fst (resolve net (forward_calls w) server domain)
                           - clock w) * 1000)%R])%list,
          (failure_count
           + Z_of_bool (forward_failed net server domain (forward_calls w)))%Z),
       w')
    /\ forward_calls w' = S (forward_calls w)
    /\ reverse_calls w' = reverse_calls w.
Proof.
  unfold query_once, forward_failed, bind, try_except, time_time, resolver_resolve,
    print, ret.
  destruct (resolve net (forward_calls w) server domain) as [seconds [[]|e]]; simpl.
  - rewrite Z.add_0_r. eexists. split; [|split]; reflexivity.
  - eexists. split; [|split]; reflexivity.
Qed.

Lemma failures_nonneg net server domain count : forall from,
  (0 <= failures net server domain from count)%Z.
Proof.
  induction count as [|c IH]; intros from; cbn [failures]; [lia|].
  specialize (IH (S from)).
  destruct (forward_failed net server domain from); unfold Z_of_bool; lia.
Qed.

Lemma failures_le_count net server domain count : forall from,
  (failures net server domain from count <= Z.of_nat count)%Z.
Proof.
  induction count as [|c IH]; intros from; [simpl; lia|].
  cbn [failures]. specialize (IH (S from)).
  destruct (forward_failed net server domain from); unfold Z_of_bool; lia.
Qed.

(** The query loop returns, from a counter that has not passed the
    threshold, with the outcome [loop_outcome] describes. *)
Lemma query_loop_run net server domain iterations :
  forall times failure_count w,
    (failure_count <= 2)%Z ->
    exists times' failure_count' w' attempts,
      query_loop net server domain iterations times failure_count w
      = (Returned (times', failure_count'), w')
      /\ loop_outcome net server domain iterations times failure_count w
           times' failure_count' w' attempts.
Proof.
  induction iterations as [|rest IH]; intros times fc w Hfc.
  - exists times, fc, w, 0. split; [reflexivity|].
    unfold loop_outcome; simpl. repeat split; try lia.
    exists []. rewrite app_nil_r. split; [reflexivity | simpl; lia].
  - destruct (query_once_run net server domain times fc w) as (w1 & Hrun & Hfw & Hrv).
    cbn [query_loop]. unfold bind at 1. rewrite Hrun.
    set (failed := forward_failed net server domain (forward_calls w)) in *.
    destruct (Z.ltb_spec 2 (fc + Z_of_bool failed)) as [Hgt | Hle].
    + (* the third failure: break *)
      destruct failed eqn:Hfailed; simpl in Hgt; [|lia].
      eexists times, (fc + 1)%Z, _, 1. split.
      * unfold bind, print, ret. simpl. reflexivity.
      * unfold loop_outcome; simpl. rewrite Hfw, Hrv.
        fold failed. rewrite Hfailed. simpl.
        repeat split; try lia.
        -- exists []. rewrite app_nil_r. split; [reflexivity | simpl; lia].
        -- intros i Hi. assert (i = 0) by lia. subst. simpl. lia.
    + destruct (IH (if failed then times
                    else (times ++ [((clock w + fst (resolve net (forward_calls w) server domain)
                                      - clock w) * 1000)%R])%list)
                  (fc + Z_of_bool failed)%Z w1 Hle)
        as (times' & fc' & w' & a & Hloop & Hout).
      exists times', fc', w', (S a). split; [exact Hloop|].
      destruct Hout as (Hf & Hr & Ha & Hcount & (new & Hnew & Hlen) & Hbefore & Hall & Hmax).
      rewrite Hfw in *.
      unfold loop_outcome. cbn [failures]. fold failed.
      repeat split; try lia.
      * destruct failed.
        -- exists new. split; [exact Hnew | simpl Z_of_bool; lia].
        -- eexists (_ :: new). rewrite Hnew, <- app_assoc. split; [reflexivity|].
           simpl Z_of_bool. simpl List.length. lia.
      * intros i Hi. destruct i as [|i]; [simpl; lia|].
        cbn [failures]. fold failed. specialize (Hbefore i). lia.
Qed.

(** The reverse lookup always returns a name and a counter of 0 or 1, and
    issues no forward call. *)
Lemma resolve_name_run net server w :
  exists w1,
    resolve_name net server 0 w
    = (Returned
         (reverse_name net server (reverse_calls w),
          Z_of_bool (reverse_failed net server (reverse_calls w))), w1)
    /\ forward_calls w1 = forward_calls w
    /\ reverse_calls w1 = S (reverse_calls w).
Proof.
  unfold resolve_name, reverse_failed, reverse_name, try_except, bind,
    resolver_resolve_address, print, ret.
  destruct (resolve_address net (reverse_calls w) server server) as [dns_name|e];
    simpl; eexists; (split; [|split]); reflexivity.
Qed.

Lemma Z_of_bool_le_1 b : (0 <= Z_of_bool b <= 1)%Z.
Proof. destruct b; simpl; lia. Qed.

(** The measurements always return; the loop starts from the counter the
    reverse lookup left, in a world where no forward call of the pass was
    issued. *)
Lemma measure_server_run net server domain num_queries w :
  exists p w1 w' attempts,
    measure_server net server domain num_queries w = (Returned p, w')
    /\ resolve_name net server 0 w
       = (Returned (pass_name p, Z_of_bool (reverse_failed net server (reverse_calls w))),
          w1)
    /\ forward_calls w1 = forward_calls w
    /\ query_loop net server domain (range_len num_queries) []
         (Z_of_bool (reverse_failed net server (reverse_calls w))) w1
       = (Returned (pass_times p, pass_failure_count p), w')
    /\ loop_outcome net server domain (range_len num_queries) []
         (Z_of_bool (reverse_failed net server (reverse_calls w))) w1
         (pass_times p) (pass_failure_count p) w' attempts
    /\ pass_name p = reverse_name net server (reverse_calls w).
Proof.
  destruct (resolve_name_run net server w) as (w1 & Hname & Hfw & Hrv).
  pose proof (Z_of_bool_le_1 (reverse_failed net server (reverse_calls w))) as Hb.
  destruct (query_loop_run net server domain (range_len num_queries) []
              (Z_of_bool (reverse_failed net server (reverse_calls w))) w1)
    as (times & fc & w' & a & Hloop & Hout); [lia|].
  exists {| pass_name := reverse_name net server (reverse_calls w);
            pass_times := times; pass_failure_count := fc |}, w1, w', a.
  cbn [pass_name pass_times pass_failure_count].
  split; [|split; [|split; [|split; [|split]]]]; try assumption; try reflexivity.
  unfold measure_server, bind. rewrite Hname, Hloop. reflexivity.
Qed.

(** A pass that returned set up its resolver, and is the measurements
    from the world the set-up leaves. *)
Lemma benchmark_pass_setup net server domain num_queries w p w' :
  benchmark_pass net server domain num_queries w = (Returned p, w') ->
  setup_succeeds net server w
  /\ measure_server net server domain num_queries (after_setup w) = (Returned p, w').
Proof.
  unfold benchmark_pass, bind, Resolver, resolver_set_nameservers, setup_succeeds.
  fold (after_setup w).
  destruct (new_resolver net (resolvers_made w)) as [[]|e]; [|discriminate].
  destruct (set_nameservers net (resolvers_made w) server) as [[]|e]; [|discriminate].
  intros H. split; [split; reflexivity | exact H].
Qed.

Lemma benchmark_pass_of_setup net server domain num_queries w :
  setup_succeeds net server w ->
  benchmark_pass net server domain num_queries w
  = measure_server net server domain num_queries (after_setup w).
Proof.
  intros [Hnew Hset].
  unfold benchmark_pass, bind, Resolver, resolver_set_nameservers.
  fold (after_setup w). now rewrite Hnew, Hset.
Qed.

Lemma benchmark_pass_returns net server domain num_queries w :
  setup_succeeds net server w ->
  exists p w', benchmark_pass net server domain num_queries w = (Returned p, w').
Proof.
  intros Hsetup. rewrite (benchmark_pass_of_setup _ _ _ _ _ Hsetup).
  destruct (measure_server_run net server domain num_queries (after_setup w))
    as (p & _ & w' & _ & H & _). eauto.
Qed.

(** The samples of a pass are at most as many as the iterations. *)
Lemma pass_times_length net server domain num_queries w p w' :
  benchmark_pass net server domain num_queries w = (Returned p, w') ->
  List.length (pass_times p) <= range_len num_queries.
Proof.
  intros Hrun. apply benchmark_pass_setup in Hrun. destruct Hrun as [_ Hrun].
  destruct (measure_server_run net server domain num_queries (after_setup w))
    as (p0 & w1 & w0' & a & Hrun0 & _ & _ & _ & Hout & _).
  rewrite Hrun in Hrun0. injection Hrun0 as <- <-.
  destruct Hout as (_ & _ & Ha & _ & (new & Hnew & Hlen) & _).
  simpl in Hnew. subst new.
  pose proof (failures_nonneg net server domain a (forward_calls w1)). lia.
Qed.

(** ** The outer loop *)

Lemma for_servers_returns net domain num_queries servers :
  (forall k, new_resolver net k = Returned tt) ->
  (forall k server, In server servers -> set_nameservers net k server = Returned tt) ->
  forall results w,
    exists results' w',
      for_servers net servers domain num_queries results w = (Returned results', w').
Proof.
  intros Hnew.
  induction servers as [|server rest IH]; intros Hset results w; simpl.
  - now exists results, w.
  - destruct (benchmark_pass_returns net server domain num_queries w) as (p & w1 & Hp).
    + split; [apply Hnew | apply Hset; now left].
    + unfold bind. rewrite Hp. apply IH. intros k s Hin. apply Hset. now right.
Qed.

Lemma for_servers_cons net domain num_queries server rest results w p w1 :
  benchmark_pass net server domain num_queries w = (Returned p, w1) ->
  for_servers net (server :: rest) domain num_queries results w
  = for_servers net rest domain num_queries
      (dict_set results server (result_of_pass p)) w1.
Proof. intros Hp. simpl. unfold bind. now rewrite Hp. Qed.

(** A loop that returned ran the pass over its first server, and went on
    from there. *)
Lemma for_servers_cons_inv net domain num_queries server rest results w results' w' :
  for_servers net (server :: rest) domain num_queries results w
  = (Returned results', w') ->
  exists p w1,
    benchmark_pass net server domain num_queries w = (Returned p, w1)
    /\ for_servers net rest domain num_queries
         (dict_set results server (result_of_pass p)) w1
       = (Returned results', w').
Proof.
  cbn [for_servers]. unfold bind at 1.
  destruct (benchmark_pass net server domain num_queries w) as [[p|e] w1];
    [|discriminate].
  intros Hrest. now exists p, w1.
Qed.

Lemma for_servers_app net domain num_queries pre : forall post results w results1 w1,
  for_servers net pre domain num_queries results w = (Returned results1, w1) ->
  for_servers net (pre ++ post) domain num_queries results w
  = for_servers net post domain num_queries results1 w1.
Proof.
  induction pre as [|server pre IH]; intros post results w results1 w1 Hrun.
  - simpl in Hrun. unfold ret in Hrun. injection Hrun as <- <-. reflexivity.
  - destruct (for_servers_cons_inv _ _ _ _ _ _ _ _ _ Hrun) as (p & w2 & Hp & Hrest).
    rewrite <- app_comm_cons.
    rewrite (for_servers_cons _ _ _ _ _ _ _ _ _ Hp).
    now apply IH.
Qed.

(** A loop over a list followed by another that returned returned from
    the first list. *)
Lemma for_servers_app_inv net domain num_queries pre :
  forall post results w results' w',
    for_servers net (pre ++ post) domain num_queries results w
    = (Returned results', w') ->
    exists results1 w1,
      for_servers net pre domain num_queries results w = (Returned results1, w1)
      /\ for_servers net post domain num_queries results1 w1 = (Returned results', w').
Proof.
  induction pre as [|server pre IH]; intros post results w results' w' Hrun.
  - exists results, w. split; [reflexivity | exact Hrun].
  - rewrite <- app_comm_cons in Hrun.
    destruct (for_servers_cons_inv _ _ _ _ _ _ _ _ _ Hrun) as (p & w2 & Hp & Hrest).
    destruct (IH _ _ _ _ _ Hrest) as (results1 & w1 & Hpre & Hpost).
    exists results1, w1. split; [|exact Hpost].
    now rewrite (for_servers_cons _ _ _ _ _ _ _ _ _ Hp).
Qed.

(** Every entry of the result was there before, or is the record of a
    pass over that server. *)
Lemma for_servers_entries net domain num_queries servers :
  forall results w results' w' server data,
    for_servers net servers domain num_queries results w = (Returned results', w') ->
    dict_get results' server = Some data ->
    dict_get results server = Some data
    \/ (In server servers
        /\ exists w1 p w2,
             benchmark_pass net server domain num_queries w1 = (Returned p, w2)
             /\ data = result_of_pass p).
Proof.
  induction servers as [|s rest IH]; intros results w results' w' server data Hrun Hget.
  - simpl in Hrun. unfold ret in Hrun. injection Hrun as <- <-. now left.
  - destruct (for_servers_cons_inv _ _ _ _ _ _ _ _ _ Hrun) as (p & w1 & Hp & Hrest).
    clear Hrun. rename Hrest into Hrun.
    destruct (IH _ _ _ _ _ _ Hrun Hget) as [Hold | (Hin & Hpass)].
    + destruct (string_dec s server) as [->|Hne].
      * rewrite dict_get_set_same in Hold. injection Hold as <-.
        right. split; [now left | eauto].
      * rewrite dict_get_set_other in Hold by assumption. now left.
    + right. split; [now right | assumption].
Qed.

Lemma for_servers_keys net domain num_queries servers :
  forall results w results' w',
    for_servers net servers domain num_queries results w = (Returned results', w') ->
    (NoDup (dict_keys results) -> NoDup (dict_keys results'))
    /\ (forall s, In s (dict_keys results') <-> In s (dict_keys results) \/ In s servers).
Proof.
  induction servers as [|s rest IH]; intros results w results' w' Hrun.
  - simpl in Hrun. unfold ret in Hrun. injection Hrun as <- <-.
    split; [auto | intros s; simpl; tauto].
  - destruct (for_servers_cons_inv _ _ _ _ _ _ _ _ _ Hrun) as (p & w1 & Hp & Hrest).
    clear Hrun. rename Hrest into Hrun.
    destruct (IH _ _ _ _ Hrun) as [Hnd Hin]. split.
    + intros H. apply Hnd. now apply dict_keys_set_NoDup.
    + intros x. rewrite Hin, dict_keys_set_in. simpl. intuition.
Qed.

(** A server that is not visited keeps its entry. *)
Lemma for_servers_untouched net domain num_queries servers :
  forall results w results' w' server,
    for_servers net servers domain num_queries results w = (Returned results', w') ->
    ~ In server servers ->
    dict_get results' server = dict_get results server.
Proof.
  induction servers as [|s rest IH]; intros results w results' w' server Hrun Hnotin.
  - simpl in Hrun. unfold ret in Hrun. now injection Hrun as <- <-.
  - destruct (for_servers_cons_inv _ _ _ _ _ _ _ _ _ Hrun) as (p & w1 & Hp & Hrest).
    clear Hrun. rename Hrest into Hrun.
    rewrite (IH _ _ _ _ server Hrun) by (simpl in Hnotin; tauto).
    apply dict_get_set_other. simpl in Hnotin. tauto.
Qed.

(** Every entry of what [benchmark_dns_servers] returns is the record of
    a pass over its server. *)
Lemma benchmark_entries net servers domain num_queries w results w' server data :
  benchmark_dns_servers net servers domain num_queries w = (Returned results, w') ->
  dict_get results server = Some data ->
  In server servers
  /\ exists w1 p w2,
       benchmark_pass net server domain num_queries w1 = (Returned p, w2)
       /\ data = result_of_pass p.
Proof.
  intros Hrun Hget.
  destruct (for_servers_entries _ _ _ _ _ _ _ _ _ _ Hrun Hget) as [Hold | H];
    [discriminate | exact H].
Qed.

(** ** The statistics *)

Lemma fold_left_Rplus_total xs : forall a, fold_left Rplus xs a = (a + total xs)%R.
Proof.
  induction xs as [|x xs IH]; intros a; simpl; [lra|].
  rewrite IH. lra.
Qed.

Lemma py_sum_total xs : py_sum xs = total xs.
Proof. unfold py_sum. rewrite fold_left_Rplus_total. lra. Qed.

Lemma mean_of_arithmetic_mean xs : mean_of xs = arithmetic_mean xs.
Proof. unfold mean_of, arithmetic_mean. now rewrite py_sum_total. Qed.

Lemma total_squares_nonneg (f : R -> R) xs :
  (0 <= total (map (fun x => Rsqr (f x)) xs))%R.
Proof.
  induction xs as [|x xs IH]; simpl; [lra|].
  pose proof (Rle_0_sqr (f x)). lra.
Qed.

Lemma variance_of_squares xs :
  variance_of xs
  = (total (map (fun x => Rsqr (x - arithmetic_mean xs)) xs) / INR (List.length xs))%R.
Proof.
  unfold variance_of. rewrite py_sum_total, mean_of_arithmetic_mean.
  f_equal. f_equal. apply map_ext. intros x. now rewrite Rsqr_pow2.
Qed.

Lemma variance_nonneg xs : xs <> [] -> (0 <= variance_of xs)%R.
Proof.
  intros Hne. rewrite variance_of_squares.
  apply Rmult_le_pos; [apply total_squares_nonneg|].
  apply Rlt_le, Rinv_0_lt_compat, lt_0_INR.
  destruct xs; [contradiction | simpl; lia].
Qed.

(** On a base that is not negative, raising to the power 0.5 takes the
    square root. *)
Lemma float_pow_half x : (0 <= x)%R -> float_pow x 0.5 = sqrt x.
Proof.
  intros Hx. unfold float_pow.
  destruct (Req_dec_T x 0) as [->|Hne].
  - now rewrite sqrt_0.
  - replace 0.5%R with (/ 2)%R by lra. apply Rpower_sqrt. lra.
Qed.

Lemma stdev_of_population_stdev xs : xs <> [] -> stdev_of xs = population_stdev xs.
Proof.
  intros Hne. unfold stdev_of, population_stdev.
  rewrite float_pow_half by now apply variance_nonneg.
  now rewrite variance_of_squares.
Qed.

(** ** Records *)

Lemma samples_of_make_result dns_name times :
  samples_of (make_result dns_name times) = times.
Proof. destruct times; reflexivity. Qed.

Lemma make_result_empty dns_name times :
  times = [] ->
  make_result dns_name times = [("name", VStr dns_name); ("error", VBool true)].
Proof. now intros ->. Qed.

Lemma make_result_error dns_name times :
  dict_get (make_result dns_name times) "error"
  = Some (VBool match times with [] => true | _ :: _ => false end).
Proof. destruct times; reflexivity. Qed.

Lemma make_result_name dns_name times :
  dict_get (make_result dns_name times) "name" = Some (VStr dns_name).
Proof. destruct times; reflexivity. Qed.

(** ** The claims *)

(** C1.  For every server whose record has samples, the recorded mean is
    the arithmetic average of the samples (their sum divided by their
    count) and the recorded standard deviation is the population standard
    deviation of the samples (the square root of the mean of the squared
    deviations from the mean, the divisor being the count).  Floats are
    read as real numbers. *)
Theorem mean_and_stdev_of_samples
    net servers domain num_queries w results w' server data :
  benchmark_dns_servers net servers domain num_queries w = (Returned results, w') ->
  dict_get results server = Some data ->
  samples_of data <> [] ->
  dict_get data "mean" = Some (VFloat (arithmetic_mean (samples_of data)))
  /\ dict_get data "stdev" = Some (VFloat (population_stdev (samples_of data))).
Proof.
  intros Hrun Hget Hne.
  destruct (benchmark_entries _ _ _ _ _ _ _ _ _ Hrun Hget)
    as (_ & w1 & p & w2 & _ & ->).
  unfold result_of_pass in *. rewrite samples_of_make_result in *.
  destruct (pass_times p) as [|t ts] eqn:Htimes; [contradiction|].
  cbn [make_result dict_get String.eqb Ascii.eqb Bool.eqb].
  rewrite mean_of_arithmetic_mean, stdev_of_population_stdev by discriminate.
  split; reflexivity.
Qed.

Lemma mean_and_stdev_of_samples_witness :
  exists results w' data,
    benchmark_dns_servers demo_net demo_servers "example.com" 3 world0
    = (Returned results, w')
    /\ dict_get results "8.8.8.8" = Some data
    /\ dict_get data "mean" = Some (VFloat (arithmetic_mean (samples_of data)))
    /\ dict_get data "stdev" = Some (VFloat (population_stdev (samples_of data))).
Proof.
  eexists _, _, _. split; [run_program|]. split; [run_program|].
  eapply (mean_and_stdev_of_samples
            demo_net demo_servers "example.com" 3 world0 _ _ "8.8.8.8");
    [run_program | run_program | run_program; discriminate].
Defined.

(** What a pass that returned [p] did. *)
Lemma benchmark_pass_inv net server domain num_queries w p w' :
  benchmark_pass net server domain num_queries w = (Returned p, w') ->
  exists w1 attempts,
    forward_calls w1 = forward_calls w
    /\ resolve_name net server 0 (after_setup w)
       = (Returned (pass_name p, Z_of_bool (reverse_failed net server (reverse_calls w))),
          w1)
    /\ query_loop net server domain (range_len num_queries) []
         (Z_of_bool (reverse_failed net server (reverse_calls w))) w1
       = (Returned (pass_times p, pass_failure_count p), w')
    /\ loop_outcome net server domain (range_len num_queries) []
         (Z_of_bool (reverse_failed net server (reverse_calls w))) w1
         (pass_times p) (pass_failure_count p) w' attempts
    /\ pass_name p = reverse_name net server (reverse_calls w).
Proof.
  intros Hrun. apply benchmark_pass_setup in Hrun. destruct Hrun as [_ Hrun].
  destruct (measure_server_run net server domain num_queries (after_setup w))
    as (p0 & w1 & w0' & a & Hrun0 & Hname & Hfw & Hloop & Hout & Hn).
  rewrite Hrun in Hrun0. injection Hrun0 as <- <-.
  exists w1, a. auto.
Qed.

Lemma failures_none net server domain count : forall from,
  (forall k, forward_failed net server domain k = false) ->
  failures net server domain from count = 0%Z.
Proof.
  induction count as [|c IH]; intros from Hok; cbn [failures]; [reflexivity|].
  rewrite Hok, IH by assumption. reflexivity.
Qed.

(** C2.  For every entry of the result, the error flag is true if and
    only if the entry has no samples.  In particular, when a positive
    number of queries is asked for, the reverse lookups of a server fail
    and all its forward queries succeed, its name is "Unknown" and its
    error flag is false. *)
Theorem error_iff_no_samples
    net servers domain num_queries w results w' server data :
  benchmark_dns_servers net servers domain num_queries w = (Returned results, w') ->
  dict_get results server = Some data ->
  (exists b, dict_get data "error" = Some (VBool b)
             /\ (b = true <-> samples_of data = []))
  /\ ((0 < num_queries)%Z ->
      (forall k, reverse_failed net server k = true) ->
      (forall k, forward_failed net server domain k = false) ->
      dict_get data "name" = Some (VStr "Unknown")
      /\ dict_get data "error" = Some (VBool false)).
Proof.
  intros Hrun Hget.
  destruct (benchmark_entries _ _ _ _ _ _ _ _ _ Hrun Hget)
    as (_ & w1 & p & w2 & Hpass & ->).
  unfold result_of_pass.
  rewrite samples_of_make_result, make_result_error, make_result_name.
  split.
  - eexists. split; [reflexivity|].
    destruct (pass_times p); split; intros H; try reflexivity; discriminate.
  - intros Hpos Hrev Hfwd.
    destruct (benchmark_pass_inv _ _ _ _ _ _ _ Hpass)
      as (w3 & a & _ & _ & _ & Hout & Hname).
    destruct Hout as (_ & _ & _ & Hfc & (new & Hnew & Hlen) & _ & Hall & _).
    rewrite failures_none in Hfc, Hlen by assumption.
    rewrite Hrev in Hfc. simpl in Hfc, Hnew.
    assert (Ha : a = range_len num_queries) by (apply Hall; lia).
    split.
    + rewrite Hname. unfold reverse_name. specialize (Hrev (reverse_calls w1)).
      unfold reverse_failed in Hrev.
      destruct (resolve_address net (reverse_calls w1) server server);
        [discriminate | reflexivity].
    + rewrite Hnew. destruct new; [|reflexivity].
      unfold range_len in Ha. simpl in Hlen. lia.
Qed.

Lemma error_iff_no_samples_witness :
  exists results w' data,
    benchmark_dns_servers demo_net demo_servers "example.com" 3 world0
    = (Returned results, w')
    /\ dict_get results "0.0.0.0" = Some data
    /\ exists b, dict_get data "error" = Some (VBool b)
                 /\ (b = true <-> samples_of data = []).
Proof.
  eexists _, _, _. split; [run_program|]. split; [run_program|].
  eapply (error_iff_no_samples
            demo_net demo_servers "example.com" 3 world0 _ _ "0.0.0.0");
    run_program.
Defined.

(** C3.  In every pass over a server, each forward query is issued while
    the failure counter, the failed reverse lookup included, is at most 2:
    once it exceeds 2 no further query is issued.  The counter is the
    number of failures and nothing more, so when the loop was left by the
    abort it is exactly 3, and then the samples are fewer than
    [num_queries]; when the counter stayed at most 2 every query of the
    range was issued. *)
Theorem abort_after_third_failure net server domain num_queries w p w' :
  benchmark_pass net server domain num_queries w = (Returned p, w') ->
  let reverse_failure := Z_of_bool (reverse_failed net server (reverse_calls w)) in
  let failed_among := failures net server domain (forward_calls w) in
  exists attempts,
    forward_calls w' = forward_calls w + attempts
    /\ attempts <= range_len num_queries
    /\ (forall i, i < attempts -> (reverse_failure + failed_among i <= 2)%Z)
    /\ pass_failure_count p = (reverse_failure + failed_among attempts)%Z
    /\ (Z.of_nat (List.length (pass_times p)) + failed_among attempts
        = Z.of_nat attempts)%Z
    /\ ((2 < pass_failure_count p)%Z ->
        pass_failure_count p = 3%Z
        /\ (Z.of_nat (List.length (pass_times p)) < num_queries)%Z)
    /\ ((pass_failure_count p <= 2)%Z -> attempts = range_len num_queries).
Proof.
  intros Hrun reverse_failure failed_among.
  destruct (benchmark_pass_inv _ _ _ _ _ _ _ Hrun)
    as (w1 & a & Hfw & _ & _ & Hout & _).
  destruct Hout as (Hf & _ & Ha & Hfc & (new & Hnew & Hlen) & Hbefore & Hall & Hmax).
  rewrite Hfw in *. simpl in Hnew. subst new.
  fold reverse_failure in Hfc, Hbefore. fold failed_among in Hfc, Hbefore, Hlen.
  exists a. split; [lia|]. split; [lia|]. split; [exact Hbefore|].
  split; [exact Hfc|]. split; [exact Hlen|]. split; [|exact Hall].
  intros Hgt.
  pose proof (Z_of_bool_le_1 (reverse_failed net server (reverse_calls w))) as Hb.
  fold reverse_failure in Hb. unfold range_len in Ha. split; lia.
Qed.

Lemma abort_after_third_failure_witness :
  exists p w' attempts,
    benchmark_pass demo_net "0.0.0.0" "example.com" 8 world0 = (Returned p, w')
    /\ forward_calls w' = forward_calls world0 + attempts
    /\ pass_failure_count p
       = (Z_of_bool (reverse_failed demo_net "0.0.0.0" (reverse_calls world0))
          + failures demo_net "0.0.0.0" "example.com" (forward_calls world0) attempts)%Z.
Proof.
  eexists _, _.
  destruct (abort_after_third_failure demo_net "0.0.0.0" "example.com" 8 world0 _ _
              ltac:(run_program))
    as (attempts & Hf & _ & _ & Hfc & _).
  exists attempts. split; [run_program|]. split; [exact Hf | exact Hfc].
Defined.

(** C4, as amended.  Provided every resolver can be created and accepts
    each server of the list as its nameserver, then whatever the domain
    and the outcome of every reverse and forward resolution,
    [benchmark_dns_servers] returns, and what it returns has an entry for
    every server of the list. *)
Theorem benchmark_returns_when_resolvers_are_set_up
    net servers domain num_queries w :
  (forall k, new_resolver net k = Returned tt) ->
  (forall k server, In server servers -> set_nameservers net k server = Returned tt) ->
  exists results w',
    benchmark_dns_servers net servers domain num_queries w = (Returned results, w')
    /\ forall server, In server servers ->
         exists data, dict_get results server = Some data.
Proof.
  intros Hnew Hset.
  destruct (for_servers_returns net domain num_queries servers Hnew Hset [] w)
    as (results & w' & Hrun).
  exists results, w'. split; [exact Hrun|].
  intros server Hin. apply dict_get_in_keys.
  apply (for_servers_keys _ _ _ _ _ _ _ _ Hrun). now right.
Qed.

Lemma benchmark_returns_when_resolvers_are_set_up_witness :
  exists results w',
    benchmark_dns_servers demo_net demo_servers "example.com" 3 world0
    = (Returned results, w')
    /\ forall server, In server demo_servers ->
         exists data, dict_get results server = Some data.
Proof.
  apply (benchmark_returns_when_resolvers_are_set_up
           demo_net demo_servers "example.com" 3 world0).
  - intros k. reflexivity.
  - intros k server Hin. reflexivity.
Defined.

(** C4, as it was stated, fails: a server that the resolver does not
    accept as a nameserver makes [benchmark_dns_servers] raise, the
    assignment of line 34 standing outside of every [try]; the servers
    before and after it get no entry, nothing being returned. *)
Lemma benchmark_raises_when_nameserver_is_refused :
  exists w',
    benchmark_dns_servers strict_net ["8.8.8.8"; "not-an-ip"; "1.1.1.1"]
      "example.com" 3 world0
    = (Raised (Exception "nameserver not-an-ip is not an IP address or valid https URL"),
       w')
    /\ forward_calls w' = 3
    /\ ~ exists results w'',
           benchmark_dns_servers strict_net ["8.8.8.8"; "not-an-ip"; "1.1.1.1"]
             "example.com" 3 world0
           = (Returned results, w'').
Proof.
  eexists. split; [run_program|]. split; [run_program|].
  intros (results & w'' & Hrun). revert Hrun. run_program. discriminate.
Qed.

(** C5.  The result has exactly one entry for each distinct server of
    the list, whatever failed; the entry of a server is the record of the
    last pass over it. *)
Theorem one_entry_per_distinct_server
    net servers domain num_queries w results w' :
  benchmark_dns_servers net servers domain num_queries w = (Returned results, w') ->
  NoDup (dict_keys results)
  /\ (forall server, In server (dict_keys results) <-> In server servers)
  /\ forall pre server post,
       servers = (pre ++ server :: post)%list -> ~ In server post ->
       exists results1 w1 p w2,
         benchmark_dns_servers net pre domain num_queries w = (Returned results1, w1)
         /\ benchmark_pass net server domain num_queries w1 = (Returned p, w2)
         /\ dict_get results server = Some (result_of_pass p).
Proof.
  intros Hrun. unfold benchmark_dns_servers in *.
  destruct (for_servers_keys _ _ _ _ _ _ _ _ Hrun) as [Hnd Hin].
  split; [apply Hnd; constructor|]. split.
  - intros server. rewrite Hin. simpl. tauto.
  - intros pre server post -> Hnotin.
    destruct (for_servers_app_inv _ _ _ _ _ _ _ _ _ Hrun)
      as (results1 & w1 & Hpre & Hpost).
    destruct (for_servers_cons_inv _ _ _ _ _ _ _ _ _ Hpost)
      as (p & w2 & Hp & Hrest).
    exists results1, w1, p, w2. split; [exact Hpre|]. split; [exact Hp|].
    rewrite (for_servers_untouched _ _ _ _ _ _ _ _ server Hrest Hnotin).
    apply dict_get_set_same.
Qed.

Lemma one_entry_per_distinct_server_witness :
  exists results w',
    benchmark_dns_servers demo_net demo_servers "example.com" 3 world0
    = (Returned results, w')
    /\ dict_keys results = ["8.8.8.8"; "0.0.0.0"]
    /\ NoDup (dict_keys results).
Proof.
  eexists _, _. split; [run_program|]. split; [run_program|].
  eapply (one_entry_per_distinct_server demo_net demo_servers "example.com" 3 world0).
  run_program.
Defined.

(** C6.  When the reverse lookup of a server fails, the lookup step
    leaves the name "Unknown" and a failure counter of 1 without a forward
    query having been issued, the query loop starts from that counter,
    and the name in the record is "Unknown".  The failure counts towards
    the threshold: the counter of the pass is 1 more than the failures of
    its forward queries; every forward query is issued while 1 and the
    forward failures so far are at most 2; the loop is left before the
    end of the range only when the counter has exceeded 2; and as soon as
    the range holds two forward queries that fail, the pass is aborted
    with a counter of 3 on the second of them. *)
Theorem reverse_failure_counts net server domain num_queries w p w' e :
  benchmark_pass net server domain num_queries w = (Returned p, w') ->
  resolve_address net (reverse_calls w) server server = Raised e ->
  let attempts := forward_calls w' - forward_calls w in
  let failed_among := failures net server domain (forward_calls w) in
  (exists w1,
     resolve_name net server 0 (after_setup w) = (Returned ("Unknown", 1%Z), w1)
     /\ forward_calls w1 = forward_calls w
     /\ query_loop net server domain (range_len num_queries) [] 1 w1
        = (Returned (pass_times p, pass_failure_count p), w'))
  /\ dict_get (result_of_pass p) "name" = Some (VStr "Unknown")
  /\ pass_failure_count p = (1 + failed_among attempts)%Z
  /\ attempts <= range_len num_queries
  /\ (forall i, i < attempts -> (1 + failed_among i <= 2)%Z)
  /\ ((pass_failure_count p <= 2)%Z -> attempts = range_len num_queries)
  /\ ((2 <= failed_among (range_len num_queries))%Z ->
      pass_failure_count p = 3%Z
      /\ failed_among attempts = 2%Z
      /\ (Z.of_nat (List.length (pass_times p)) = Z.of_nat attempts - 2)%Z).
Proof.
  intros Hrun Hrev attempts failed_among.
  destruct (benchmark_pass_inv _ _ _ _ _ _ _ Hrun)
    as (w1 & a & Hfw & Hname & Hloop & Hout & Hn).
  assert (Hfailed : reverse_failed net server (reverse_calls w) = true)
    by (unfold reverse_failed; now rewrite Hrev).
  assert (Hunknown : pass_name p = "Unknown")
    by (rewrite Hn; unfold reverse_name; now rewrite Hrev).
  rewrite Hfailed in *. rewrite Hunknown in Hname. cbn [Z_of_bool] in *.
  destruct Hout as (Hf & _ & Ha & Hfc & (new & Hnew & Hlen) & Hbefore & Hall & Hmax).
  rewrite Hfw in *. simpl in Hnew. subst new.
  assert (Hattempts : attempts = a) by (unfold attempts; lia).
  rewrite Hattempts. fold failed_among in Hfc, Hlen, Hbefore.
  split; [exists w1; auto|].
  split; [unfold result_of_pass; rewrite make_result_name; now rewrite Hunknown|].
  split; [exact Hfc|]. split; [exact Ha|]. split; [exact Hbefore|].
  split; [exact Hall|].
  intros Htwo.
  destruct (Z_le_gt_dec (pass_failure_count p) 2) as [Hle | Hgt].
  - specialize (Hall Hle). rewrite Hall in Hfc. lia.
  - lia.
Qed.

Lemma reverse_failure_counts_witness :
  exists p w',
    benchmark_pass demo_net "0.0.0.0" "example.com" 8 world0 = (Returned p, w')
    /\ dict_get (result_of_pass p) "name" = Some (VStr "Unknown")
    /\ forward_calls w' - forward_calls world0 = 2
    /\ pass_failure_count p = 3%Z.
Proof.
  eexists _, _.
  destruct (reverse_failure_counts demo_net "0.0.0.0" "example.com" 8 world0 _ _
              (Exception "timeout") ltac:(run_program) ltac:(reflexivity))
    as (_ & Hname & _ & _ & _ & _ & Habort).
  split; [run_program|]. split; [exact Hname|]. split; [run_program|].
  apply Habort. run_program. discriminate.
Defined.

(** C7.  For every entry of the result, the samples are at most as many
    as the iterations of the query loop, and so at most [num_queries]
    when [num_queries] is not negative. *)
Theorem samples_at_most_num_queries
    net servers domain num_queries w results w' server data :
  benchmark_dns_servers net servers domain num_queries w = (Returned results, w') ->
  dict_get results server = Some data ->
  List.length (samples_of data) <= range_len num_queries
  /\ ((0 <= num_queries)%Z ->
      (Z.of_nat (List.length (samples_of data)) <= num_queries)%Z).
Proof.
  intros Hrun Hget.
  destruct (benchmark_entries _ _ _ _ _ _ _ _ _ Hrun Hget)
    as (_ & w1 & p & w2 & Hpass & ->).
  unfold result_of_pass. rewrite samples_of_make_result.
  pose proof (pass_times_length _ _ _ _ _ _ _ Hpass) as Hlen.
  unfold range_len in *. split; lia.
Qed.

Lemma samples_at_most_num_queries_witness :
  exists results w' data,
    benchmark_dns_servers demo_net demo_servers "example.com" 3 world0
    = (Returned results, w')
    /\ dict_get results "8.8.8.8" = Some data
    /\ List.length (samples_of data) <= range_len 3
    /\ ((0 <= 3)%Z -> (Z.of_nat (List.length (samples_of data)) <= 3)%Z).
Proof.
  eexists _, _, _. split; [run_program|]. split; [run_program|].
  eapply (samples_at_most_num_queries
            demo_net demo_servers "example.com" 3 world0 _ _ "8.8.8.8");
    run_program.
Defined.

Lemma for_servers_no_queries net domain num_queries servers :
  (num_queries <= 0)%Z ->
  forall results w results' w',
    for_servers net servers domain num_queries results w = (Returned results', w') ->
    forward_calls w' = forward_calls w.
Proof.
  intros Hn.
  induction servers as [|s rest IH]; intros results w results' w' Hrun.
  - simpl in Hrun. unfold ret in Hrun. now injection Hrun as <- <-.
  - destruct (for_servers_cons_inv _ _ _ _ _ _ _ _ _ Hrun) as (p & w1 & Hp & Hrest).
    clear Hrun. rename Hrest into Hrun.
    rewrite (IH _ _ _ _ Hrun).
    destruct (benchmark_pass_inv _ _ _ _ _ _ _ Hp) as (w2 & a & Hfw & _ & _ & Hout & _).
    destruct Hout as (Hf & _ & Ha & _).
    unfold range_len in Ha. lia.
Qed.

(** C10.  When [num_queries] is zero or negative no forward query is
    issued at all, and every server of the list has a record that holds
    only its name and an error flag that is true, with no samples,
    whatever the reverse and the forward resolutions would answer. *)
Theorem no_queries_when_not_positive
    net servers domain num_queries w results w' :
  benchmark_dns_servers net servers domain num_queries w = (Returned results, w') ->
  (num_queries <= 0)%Z ->
  forward_calls w' = forward_calls w
  /\ forall server, In server servers ->
       exists data dns_name,
         dict_get results server = Some data
         /\ data = [("name", VStr dns_name); ("error", VBool true)]
         /\ samples_of data = [].
Proof.
  intros Hrun Hn. split.
  - exact (for_servers_no_queries _ _ _ _ Hn _ _ _ _ Hrun).
  - intros server Hin.
    assert (Hkey : In server (dict_keys results))
      by (apply (for_servers_keys _ _ _ _ _ _ _ _ Hrun); now right).
    apply dict_get_in_keys in Hkey. destruct Hkey as (data & Hget).
    destruct (benchmark_entries _ _ _ _ _ _ _ _ _ Hrun Hget)
      as (_ & w1 & p & w2 & Hpass & ->).
    pose proof (pass_times_length _ _ _ _ _ _ _ Hpass) as Hlen.
    unfold range_len in Hlen.
    assert (Hempty : pass_times p = [])
      by (destruct (pass_times p); [reflexivity | simpl in Hlen; lia]).
    exists (result_of_pass p), (pass_name p). unfold result_of_pass in *.
    rewrite (make_result_empty _ _ Hempty) in *. repeat split. exact Hget.
Qed.

Lemma no_queries_when_not_positive_witness :
  exists results w',
    benchmark_dns_servers demo_net demo_servers "example.com" 0 world0
    = (Returned results, w')
    /\ forward_calls w' = forward_calls world0
    /\ dict_get results "8.8.8.8"
       = Some [("name", VStr "dns.google."); ("error", VBool true)].
Proof.
  eexists _, _. split; [run_program|].
  destruct (no_queries_when_not_positive
              demo_net demo_servers "example.com" 0 world0 _ _
              ltac:(run_program) ltac:(lia)) as [Hfw _].
  split; [exact Hfw | run_program].
Defined.

(** ** The table *)

Lemma string_length_append s1 s2 :
  String.length (s1 ++ s2) = String.length s1 + String.length s2.
Proof. induction s1 as [|c s1 IH]; simpl; [reflexivity | now rewrite IH]. Qed.

Lemma spaces_length n : String.length (spaces n) = n.
Proof. induction n as [|n IH]; simpl; [reflexivity | now rewrite IH]. Qed.

Section DisplayProofs.

Variable repr_float : R -> string.
Variable format_fixed : nat -> R -> string.

Lemma red_string_is_red v : is_red (red_string repr_float v).
Proof. unfold is_red, red_string. eauto. Qed.

Lemma float_str_zero : float_str repr_float 0 = "0.0".
Proof.
  unfold float_str. destruct (Req_dec_T 0 0) as [_|Hne]; [reflexivity|].
  now contradiction Hne.
Qed.

(** The rows are added one per item, in the order of the items. *)
Lemma add_rows_rows items : forall t0 t,
  add_rows repr_float format_fixed items t0 = Some t ->
  exists cells,
    rows t = (rows t0 ++ cells)%list
    /\ Forall2
         (fun item row =>
            display_row repr_float format_fixed (fst item) (snd item) = Some row)
         items cells.
Proof.
  induction items as [|[server data] items IH]; intros t0 t Hadd; simpl in Hadd.
  - injection Hadd as <-. exists []. rewrite app_nil_r. split; constructor.
  - destruct (display_row repr_float format_fixed server data) as [row|] eqn:Hrow;
      [|discriminate].
    destruct (IH _ _ Hadd) as (cells & Hrows & Hall).
    exists (row :: cells). split.
    + rewrite Hrows. simpl. now rewrite <- app_assoc.
    + constructor; assumption.
Qed.

Lemma Forall2_nth_error_left (A B : Type) (P : A -> B -> Prop) l l' :
  Forall2 P l l' ->
  forall i a, nth_error l i = Some a ->
    exists b, nth_error l' i = Some b /\ P a b.
Proof.
  induction 1 as [|x y l l' Hxy Hrest IH]; intros i a Hi.
  - destruct i; discriminate.
  - destruct i as [|i]; simpl in *.
    + injection Hi as <-. eauto.
    + eauto.
Qed.

Lemma join_concat sep parts : join sep parts = String.concat sep parts.
Proof.
  induction parts as [|p rest IH]; [reflexivity|].
  destruct rest as [|q rest]; [reflexivity|].
  cbn [join String.concat]. cbn [join String.concat] in IH. now rewrite IH.
Qed.

Lemma spaces_all_spaces n : all_spaces (spaces n).
Proof.
  induction n as [|n IH]; intros c Hin; simpl in Hin; [contradiction|].
  destruct Hin as [<- | Hin]; [reflexivity | now apply IH].
Qed.

Lemma rjust_padded width text : padded_to width text (rjust width text).
Proof.
  exists (spaces (width - String.length text)). unfold rjust.
  split; [reflexivity|]. split; [apply spaces_all_spaces|].
  rewrite string_length_append, spaces_length. lia.
Qed.

Lemma format_times_padded samples :
  Forall2 (fun sample cell => padded_to 3 (format_fixed 0 sample) cell)
    samples (map (format_time format_fixed) samples).
Proof.
  induction samples as [|x samples IH]; simpl; constructor; [|exact IH].
  apply rjust_padded.
Qed.

(** The row of a record that is marked as failed. *)
Lemma display_row_failed server data :
  marked_failed data ->
  exists name_cell mean_cell stdev_cell,
    display_row repr_float format_fixed server data
    = Some ["[red]" ++ server ++ "[/red]"; "[red]" ++ name_cell ++ "[/red]";
            "[red]Error on query attempt[/red]";
            "[red]" ++ mean_cell ++ "[/red]"; "[red]" ++ stdev_cell ++ "[/red]"].
Proof.
  intros Hfailed. unfold display_row, red_string.
  assert (Hcond : negb (truthy (dict_get_default data "times" (VList [])))
                  || truthy (dict_get_default data "error" (VBool false)) = true).
  { unfold dict_get_default. destruct Hfailed as [He | [Ht | Ht]].
    - rewrite He. apply orb_true_r.
    - now rewrite Ht.
    - now rewrite Ht. }
  rewrite Hcond. eexists _, _, _. reflexivity.
Qed.

(** The row of a record with measurements. *)
Lemma display_row_measured server data dns_name samples mean stdev :
  measured data dns_name samples mean stdev ->
  display_row repr_float format_fixed server data
  = Some [server; dns_name; join "," (map (format_time format_fixed) samples);
          format_fixed 1 mean; format_fixed 1 stdev].
Proof.
  intros (Hname & Htimes & Hne & Hmean & Hstdev & Herror).
  unfold display_row, dict_get_default.
  rewrite Hname, Htimes, Hmean, Hstdev, Herror.
  destruct samples; [contradiction | reflexivity].
Qed.

(** C8.  The table has one row per entry of the result, in the order of
    the entries.  The row of an entry whose error flag is true or whose
    samples are empty has five cells, all in the error style, the first
    holding the server and the third the error marker.  The row of an
    entry with samples and an error flag that is false holds the server,
    the name, the samples joined by commas, each in fixed-point notation
    with no decimal place and padded with spaces to three characters, and
    the mean and the standard deviation with one decimal place. *)
Theorem one_row_per_entry results t :
  display_results repr_float format_fixed results = Some t ->
  List.length (rows t) = List.length results
  /\ forall i server data,
       nth_error results i = Some (server, data) ->
       exists row,
         nth_error (rows t) i = Some row
         /\ (marked_failed data -> error_row server row)
         /\ (forall dns_name samples mean stdev,
               measured data dns_name samples mean stdev ->
               exists cells,
                 Forall2
                   (fun sample cell => padded_to 3 (format_fixed 0 sample) cell)
                   samples cells
                 /\ row = [server; dns_name; String.concat "," cells;
                           format_fixed 1 mean; format_fixed 1 stdev]).
Proof.
  intros Hdisplay. unfold display_results in Hdisplay.
  destruct (add_rows_rows _ _ _ Hdisplay) as (cells & Hrows & Hall).
  simpl in Hrows. rewrite Hrows. split.
  - symmetry. exact (Forall2_length Hall).
  - intros i server data Hi.
    destruct (Forall2_nth_error_left _ _ _ _ _ Hall _ _ Hi) as (row & Hrow & Hcells).
    simpl in Hcells. exists row. split; [exact Hrow|]. split.
    + intros Hfailed.
      destruct (display_row_failed server data Hfailed)
        as (name_cell & mean_cell & stdev_cell & Hred).
      rewrite Hred in Hcells. injection Hcells as <-.
      unfold error_row. split; [reflexivity|]. split; [|split; reflexivity].
      apply Forall_cons; [now exists server|].
      apply Forall_cons; [now exists name_cell|].
      apply Forall_cons; [now exists "Error on query attempt"|].
      apply Forall_cons; [now exists mean_cell|].
      apply Forall_cons; [now exists stdev_cell | apply Forall_nil].
    + intros dns_name samples mean stdev Hmeasured.
      rewrite (display_row_measured server _ _ _ _ _ Hmeasured) in Hcells.
      injection Hcells as <-.
      exists (map (format_time format_fixed) samples).
      split; [apply format_times_padded | now rewrite join_concat].
Qed.

(** The table of what the benchmark returns can always be built. *)
Lemma display_row_of_pass server p :
  exists row, display_row repr_float format_fixed server (result_of_pass p) = Some row.
Proof.
  unfold result_of_pass, make_result. destruct (pass_times p); eexists; reflexivity.
Qed.

Lemma add_rows_total items : forall t0,
  (forall server data, In (server, data) items ->
     exists row, display_row repr_float format_fixed server data = Some row) ->
  exists t, add_rows repr_float format_fixed items t0 = Some t.
Proof.
  induction items as [|[server data] items IH]; intros t0 Hrows; simpl.
  - eauto.
  - destruct (Hrows server data) as (row & ->); [now left|].
    apply IH. intros s d Hin. apply Hrows. now right.
Qed.

Lemma dict_get_of_In (V : Type) (d : dict V) k v :
  NoDup (dict_keys d) -> In (k, v) d -> dict_get d k = Some v.
Proof.
  induction d as [|[k0 v0] d IH]; simpl; intros Hnd Hin; [contradiction|].
  inversion Hnd as [|? ? Hnotin Hnd']; subst.
  destruct Hin as [Heq | Hin].
  - injection Heq as -> ->. now rewrite String.eqb_refl.
  - destruct (String.eqb_spec k0 k) as [->|Hne]; [|auto].
    exfalso. apply Hnotin. unfold dict_keys.
    change k with (fst (k, v)). now apply in_map.
Qed.

Lemma display_results_of_benchmark net servers domain num_queries w results w' :
  benchmark_dns_servers net servers domain num_queries w = (Returned results, w') ->
  exists t, display_results repr_float format_fixed results = Some t.
Proof.
  intros Hrun. apply add_rows_total. intros server data Hin.
  assert (Hnd : NoDup (dict_keys results))
    by (apply (for_servers_keys _ _ _ _ _ _ _ _ Hrun); constructor).
  pose proof (dict_get_of_In _ _ _ _ Hnd Hin) as Hget.
  destruct (benchmark_entries _ _ _ _ _ _ _ _ _ Hrun Hget)
    as (_ & w1 & p & w2 & _ & ->).
  apply display_row_of_pass.
Qed.

(** C9.  The record of a server whose pass ended without samples holds
    the name and the error flag and nothing else: there is no "times",
    no "mean" and no "stdev" key.  Its row in the table shows, for the
    mean and for the standard deviation, the default 0.0 in the error
    style. *)
Theorem failed_record_and_row
    net servers domain num_queries w results w' server data :
  benchmark_dns_servers net servers domain num_queries w = (Returned results, w') ->
  dict_get results server = Some data ->
  samples_of data = [] ->
  (exists dns_name, data = [("name", VStr dns_name); ("error", VBool true)])
  /\ dict_get data "times" = None
  /\ dict_get data "mean" = None
  /\ dict_get data "stdev" = None
  /\ exists row,
       display_row repr_float format_fixed server data = Some row
       /\ nth_error row 3 = Some "[red]0.0[/red]"
       /\ nth_error row 4 = Some "[red]0.0[/red]".
Proof.
  intros Hrun Hget Hempty.
  destruct (benchmark_entries _ _ _ _ _ _ _ _ _ Hrun Hget)
    as (_ & w1 & p & w2 & _ & ->).
  unfold result_of_pass in *. rewrite samples_of_make_result in Hempty.
  rewrite (make_result_empty _ _ Hempty).
  split; [eauto|]. repeat (split; [reflexivity|]).
  exists [red_string repr_float (VStr server);
          red_string repr_float (VStr (pass_name p));
          red_string repr_float (VStr "Error on query attempt");
          red_string repr_float (VFloat 0); red_string repr_float (VFloat 0)].
  split; [reflexivity|].
  cbn [nth_error]. unfold red_string, py_str.
  rewrite float_str_zero. split; reflexivity.
Qed.

End DisplayProofs.

Lemma one_row_per_entry_witness :
  exists results w' t,
    benchmark_dns_servers demo_net demo_servers "example.com" 3 world0
    = (Returned results, w')
    /\ display_results demo_repr_float demo_format_fixed results = Some t
    /\ List.length (rows t) = List.length results
    /\ nth_error (rows t) 0
       = Some ["8.8.8.8"; "dns.google."; " 10, 10, 10"; "10.0"; "10.0"]
    /\ (forall row, nth_error (rows t) 1 = Some row -> error_row "0.0.0.0" row).
Proof.
  eexists _, _, _. split; [run_program|]. split; [run_program|].
  match goal with
  | |- List.length (rows ?t) = List.length ?results /\ _ =>
      destruct (one_row_per_entry demo_repr_float demo_format_fixed results t
                  ltac:(run_program)) as (Hlen & Hrows)
  end.
  split; [exact Hlen|]. split.
  - run_program.
  - intros row Hrow.
    destruct (Hrows 1 "0.0.0.0" _ ltac:(run_program)) as (row' & Hrow' & Hbad & _).
    rewrite Hrow in Hrow'. injection Hrow' as <-.
    apply Hbad. right. left. run_program.
Defined.

Lemma failed_record_and_row_witness :
  exists results w' data,
    benchmark_dns_servers demo_net demo_servers "example.com" 3 world0
    = (Returned results, w')
    /\ dict_get results "0.0.0.0" = Some data
    /\ dict_get data "mean" = None
    /\ exists row,
         display_row demo_repr_float demo_format_fixed "0.0.0.0" data = Some row
         /\ nth_error row 3 = Some "[red]0.0[/red]".
Proof.
  eexists _, _, _. split; [run_program|]. split; [run_program|].
  destruct (failed_record_and_row demo_repr_float demo_format_fixed
              demo_net demo_servers "example.com" 3 world0 _ _ "0.0.0.0" _
              ltac:(run_program) ltac:(run_program) ltac:(run_program))
    as (_ & _ & Hmean & _ & row & Hrow & Hcell & _).
  split; [exact Hmean|]. exists row. split; [exact Hrow | exact Hcell].
Defined.

(** ** The scenarios of the specification *)

Example mean_of_10_20_30 : mean_of [10; 20; 30]%R = 20%R.
Proof. unfold mean_of, py_sum. simpl. lra. Qed.

Example stdev_of_10_20_30 : stdev_of [10; 20; 30]%R = sqrt (200 / 3).
Proof.
  rewrite stdev_of_population_stdev by discriminate.
  unfold population_stdev, arithmetic_mean. f_equal.
  simpl. unfold Rsqr. field.
Qed.

Example stdev_of_10_20_30_approx : (8.16 < stdev_of [10; 20; 30] < 8.17)%R.
Proof.
  rewrite stdev_of_10_20_30.
  assert (Hlow : (sqrt (Rsqr 8.16) < sqrt (200 / 3))%R)
    by (apply sqrt_lt_1; unfold Rsqr; lra).
  assert (Hhigh : (sqrt (200 / 3) < sqrt (Rsqr 8.17))%R)
    by (apply sqrt_lt_1; unfold Rsqr; lra).
  rewrite sqrt_Rsqr in Hlow, Hhigh by lra. split; assumption.
Qed.

(** One server, three queries answered in 10, 20 and 30 milliseconds. *)
Example scenario_three_samples :
  exists w',
    benchmark_dns_servers steady_net ["8.8.8.8"] "example.com" 3 world0
    = (Returned [("8.8.8.8", make_result "dns.google." [10; 20; 30]%R)], w').
Proof.
  eexists.
  replace [10; 20; 30]%R
    with [((0 + 0.01 - 0) * 1000)%R;
          ((0 + 0.01 + 0.02 - (0 + 0.01)) * 1000)%R;
          ((0 + 0.01 + 0.02 + 0.03 - (0 + 0.01 + 0.02)) * 1000)%R]
    by (repeat f_equal; lra).
  run_program.
Qed.

(** The reverse lookup and every forward query fail: the loop is left
    after the second forward query, the third failure. *)
Example scenario_all_fail :
  exists w',
    benchmark_dns_servers demo_net ["0.0.0.0"] "example.com" 8 world0
    = (Returned [("0.0.0.0", [("name", VStr "Unknown"); ("error", VBool true)])], w')
    /\ forward_calls w' = 2.
Proof. eexists. split; run_program. Qed.

(** Eight queries asked for, the first three fail: three are issued. *)
Example scenario_first_three_fail :
  exists p w',
    benchmark_pass failing_net "4.2.2.1" "example.com" 8 world0 = (Returned p, w')
    /\ pass_name p = "sinkhole." /\ pass_times p = []
    /\ pass_failure_count p = 3%Z /\ forward_calls w' = 3.
Proof. eexists _, _. split; [run_program|]. repeat split. Qed.

(** The table of the demonstration run: a row of measurements and a row
    in the error style. *)
Example demo_table :
  exists results w' t,
    benchmark_dns_servers demo_net demo_servers "example.com" 2 world0
    = (Returned results, w')
    /\ display_results demo_repr_float demo_format_fixed results = Some t
    /\ map (fun row => nth 2 row "") (rows t)
       = [" 10, 10"; "[red]Error on query attempt[/red]"].
Proof.
  eexists _, _, _. split; [run_program|]. split; run_program.
Qed.

(** * Further properties of the program *)

(** ** The world after a pass *)

Lemma query_once_world net server domain times failure_count w :
  let k := forward_calls w in
  let failed := forward_failed net server domain k in
  query_once net server domain times failure_count w
  = (Returned
       (if failed then times
        else (times ++ [((clock w + duration net server domain k - clock w) * 1000)%R])%list,
        (failure_count + Z_of_bool failed)%Z),
     {| clock := (clock w + duration net server domain k)%R;
        resolvers_made := resolvers_made w;
        reverse_calls := reverse_calls w;
        forward_calls := S k;
        stdout := if failed
                  then (stdout w ++ [query_error_line net server domain k])%list
                  else stdout w |}).
Proof.
  unfold query_once, forward_failed, duration, query_error_line, failure_text,
    bind, try_except, time_time, resolver_resolve, print, ret.
  destruct (resolve net (forward_calls w) server domain) as [seconds [[]|e]]; simpl.
  - now rewrite Z.add_0_r.
  - reflexivity.
Qed.

Lemma resolve_name_world net server w :
  resolve_name net server 0 w
  = (Returned (reverse_name net server (reverse_calls w),
               Z_of_bool (reverse_failed net server (reverse_calls w))),
     {| clock := clock w;
        resolvers_made := resolvers_made w;
        reverse_calls := S (reverse_calls w);
        forward_calls := forward_calls w;
        stdout := (stdout w ++ [reverse_line net server (reverse_calls w)])%list |}).
Proof.
  unfold resolve_name, reverse_failed, reverse_name, reverse_line, try_except, bind,
    resolver_resolve_address, print, ret.
  destruct (resolve_address net (reverse_calls w) server server); reflexivity.
Qed.

Lemma expected_samples_S net server domain from count :
  expected_samples net server domain from (S count)
  = ((if forward_failed net server domain from then []
      else [(duration net server domain from * 1000)%R])
     ++ expected_samples net server domain (S from) count)%list.
Proof.
  unfold expected_samples, succeeded. cbn [seq filter].
  destruct (forward_failed net server domain from); reflexivity.
Qed.

Lemma query_error_lines_S net server domain from count :
  query_error_lines net server domain from (S count)
  = ((if forward_failed net server domain from
      then [query_error_line net server domain from] else [])
     ++ query_error_lines net server domain (S from) count)%list.
Proof.
  unfold query_error_lines. cbn [seq filter].
  destruct (forward_failed net server domain from); reflexivity.
Qed.

Lemma query_loop_trace net server domain iterations :
  forall times failure_count w,
    (failure_count <= 2)%Z ->
    exists times' failure_count' w' attempts,
      query_loop net server domain iterations times failure_count w
      = (Returned (times', failure_count'), w')
      /\ loop_trace net server domain iterations times failure_count w
           times' failure_count' w' attempts.
Proof.
  induction iterations as [|rest IH]; intros times fc w Hfc.
  - exists times, fc, w, 0. split; [reflexivity|].
    unfold loop_trace, expected_samples, query_error_lines. cbn [seq filter map total].
    destruct (Z.ltb_spec 2 fc) as [Hgt|_]; [lia|].
    rewrite !app_nil_r, Z.add_0_r, Nat.add_0_r, Rplus_0_r. repeat split. lia.
  - cbn [query_loop]. unfold bind at 1. rewrite query_once_world.
    set (k := forward_calls w).
    set (failed := forward_failed net server domain k).
    destruct (Z.ltb_spec 2 (fc + Z_of_bool failed)) as [Hgt | Hle].
    + (* the third failure: the loop is left *)
      assert (Hfailed : failed = true) by (destruct failed; [reflexivity | simpl in Hgt; lia]).
      eexists _, _, _, 1. split; [unfold bind, print, ret; reflexivity|].
      unfold loop_trace. cbn [forward_calls reverse_calls stdout clock].
      rewrite expected_samples_S, query_error_lines_S.
      unfold expected_samples, query_error_lines.
      cbn [failures seq filter map total]. fold k. fold failed. rewrite Hfailed.
      cbn [Z_of_bool app].
      rewrite Hfailed in Hgt. cbn [Z_of_bool] in Hgt.
      destruct (Z.ltb_spec 2 (fc + 1)) as [_|Hno]; [|lia].
      rewrite app_nil_r, <- app_assoc.
      repeat split; try lia. lra.
    + match goal with
      | |- context [query_loop _ _ _ rest ?t ?c ?w1] =>
          destruct (IH t c w1 Hle) as (times' & fc' & w' & a & Hloop & Htrace)
      end.
      exists times', fc', w', (S a). split; [exact Hloop|].
      destruct Htrace as (Hf & Ha & Hr & Ht & Hc & Hout & Hclock).
      cbn [forward_calls reverse_calls stdout clock] in *.
      unfold loop_trace. fold k.
      rewrite expected_samples_S, query_error_lines_S.
      cbn [failures seq map total]. fold failed.
      split; [lia|]. split; [lia|]. split; [exact Hr|].
      split; [|split; [|split]].
      * rewrite Ht. destruct failed; [reflexivity|].
        rewrite <- app_assoc. cbn [app]. do 3 f_equal. unfold k. ring.
      * rewrite Hc. lia.
      * rewrite Hout. destruct failed; [|reflexivity].
        now rewrite <- !app_assoc.
      * rewrite Hclock. lra.
Qed.

(** What a pass that returned [p] did, in terms of the answers of the
    network. *)
Lemma benchmark_pass_trace net server domain num_queries w p w' :
  benchmark_pass net server domain num_queries w = (Returned p, w') ->
  exists attempts,
    forward_calls w' = forward_calls w + attempts
    /\ attempts <= range_len num_queries
    /\ reverse_calls w' = S (reverse_calls w)
    /\ pass_name p = reverse_name net server (reverse_calls w)
    /\ pass_times p = expected_samples net server domain (forward_calls w) attempts
    /\ pass_failure_count p
       = (Z_of_bool (reverse_failed net server (reverse_calls w))
          + failures net server domain (forward_calls w) attempts)%Z
    /\ stdout w'
       = (stdout w
          ++ reverse_line net server (reverse_calls w)
             :: query_error_lines net server domain (forward_calls w) attempts
          ++ (if (2 <? pass_failure_count p)%Z then [skip_line server] else []))%list
    /\ clock w'
       = (clock w + total (map (duration net server domain)
                             (seq (forward_calls w) attempts)))%R.
Proof.
  intros Hrun. apply benchmark_pass_setup in Hrun. destruct Hrun as [_ Hrun].
  unfold measure_server, bind in Hrun.
  rewrite resolve_name_world in Hrun. cbn [after_setup reverse_calls] in Hrun.
  pose proof (Z_of_bool_le_1 (reverse_failed net server (reverse_calls w))) as Hb.
  match type of Hrun with
  | context [query_loop _ _ _ ?n ?t ?c ?w1] =>
      destruct (query_loop_trace net server domain n t c w1)
        as (times' & fc' & w2 & a & Hloop & Htrace); [lia|]
  end.
  rewrite Hloop in Hrun. unfold ret in Hrun. injection Hrun as <- <-.
  destruct Htrace as (Hf & Ha & Hr & Ht & Hc & Hout & Hclock).
  cbn [after_setup forward_calls reverse_calls stdout clock pass_name pass_times
       pass_failure_count] in *.
  exists a. repeat split; try assumption.
  rewrite Hout, <- app_assoc. reflexivity.
Qed.

(** ** More on the outer loop *)

(** The counters and the output over the whole loop. *)
Lemma for_servers_counts net domain num_queries servers :
  forall results w results' w',
    for_servers net servers domain num_queries results w = (Returned results', w') ->
    reverse_calls w' = reverse_calls w + List.length servers
    /\ forward_calls w <= forward_calls w'
    /\ forward_calls w' <= forward_calls w + List.length servers * range_len num_queries
    /\ exists out, stdout w' = (stdout w ++ out)%list
                   /\ List.length servers <= List.length out.
Proof.
  induction servers as [|s rest IH]; intros results w results' w' Hrun.
  - simpl in Hrun. unfold ret in Hrun. injection Hrun as <- <-.
    simpl. repeat split; try lia. exists []. now rewrite app_nil_r.
  - destruct (for_servers_cons_inv _ _ _ _ _ _ _ _ _ Hrun) as (p & w1 & Hp & Hrest).
    clear Hrun. rename Hrest into Hrun.
    destruct (IH _ _ _ _ Hrun) as (Hr & Hlow & Hhigh & out & Hout & Hlen).
    destruct (benchmark_pass_trace _ _ _ _ _ _ _ Hp)
      as (a & Hf1 & Ha & Hr1 & _ & _ & _ & Hout1 & _).
    cbn [List.length Nat.mul]. repeat split; try lia.
    eexists. split.
    + rewrite Hout, Hout1, <- app_assoc. reflexivity.
    + rewrite length_app. simpl. lia.
Qed.

(** Every entry of the result is the record of a pass that ran between
    the start and the end of the loop. *)
Lemma for_servers_entries_world net domain num_queries servers :
  forall results w results' w' server data,
    for_servers net servers domain num_queries results w = (Returned results', w') ->
    dict_get results' server = Some data ->
    dict_get results server = Some data
    \/ (In server servers
        /\ exists w1 p w2,
             benchmark_pass net server domain num_queries w1 = (Returned p, w2)
             /\ data = result_of_pass p
             /\ reverse_calls w <= reverse_calls w1
             /\ reverse_calls w2 <= reverse_calls w'
             /\ forward_calls w <= forward_calls w1
             /\ forward_calls w2 <= forward_calls w').
Proof.
  induction servers as [|s rest IH]; intros results w results' w' server data Hrun Hget.
  - simpl in Hrun. unfold ret in Hrun. injection Hrun as <- <-. now left.
  - destruct (for_servers_cons_inv _ _ _ _ _ _ _ _ _ Hrun) as (p & w1 & Hp & Hrest).
    clear Hrun. rename Hrest into Hrun.
    destruct (for_servers_counts _ _ _ _ _ _ _ _ Hrun) as (Hr & Hlow & _).
    destruct (benchmark_pass_trace _ _ _ _ _ _ _ Hp)
      as (a & Hf1 & _ & Hr1 & _).
    destruct (IH _ _ _ _ _ _ Hrun Hget)
      as [Hold | (Hin & w2 & p2 & w3 & Hp2 & Hdata & Hb1 & Hb2 & Hb3 & Hb4)].
    + destruct (string_dec s server) as [->|Hne].
      * rewrite dict_get_set_same in Hold. injection Hold as <-.
        right. split; [now left|].
        exists w, p, w1. repeat split; try assumption; lia.
      * rewrite dict_get_set_other in Hold by assumption. now left.
    + right. split; [now right|].
      exists w2, p2, w3. repeat split; try assumption; lia.
Qed.

Lemma existsb_eqb_In x l : existsb (String.eqb x) l = true <-> In x l.
Proof.
  rewrite existsb_exists. split.
  - intros (y & Hin & Heq). apply String.eqb_eq in Heq. now subst.
  - intros Hin. exists x. split; [exact Hin | apply String.eqb_refl].
Qed.

Lemma existsb_eqb_ext x l l' :
  (forall y, In y l <-> In y l') ->
  existsb (String.eqb x) l = existsb (String.eqb x) l'.
Proof.
  intros Hsame.
  destruct (existsb (String.eqb x) l) eqn:E; destruct (existsb (String.eqb x) l') eqn:E';
    try reflexivity.
  - apply existsb_eqb_In, Hsame, existsb_eqb_In in E. congruence.
  - apply existsb_eqb_In, Hsame, existsb_eqb_In in E'. congruence.
Qed.

Lemma distinct_ext servers : forall seen seen',
  (forall y, In y seen <-> In y seen') ->
  distinct seen servers = distinct seen' servers.
Proof.
  induction servers as [|s rest IH]; intros seen seen' Hsame; [reflexivity|].
  cbn [distinct]. rewrite (existsb_eqb_ext s seen seen' Hsame).
  destruct (existsb (String.eqb s) seen'); [now apply IH|].
  f_equal. apply IH. intros y. simpl. rewrite Hsame. tauto.
Qed.

Lemma distinct_of_NoDup servers : forall seen,
  NoDup servers -> (forall s, In s servers -> ~ In s seen) ->
  distinct seen servers = servers.
Proof.
  induction servers as [|s rest IH]; intros seen Hnd Hfresh; [reflexivity|].
  inversion Hnd as [|? ? Hnotin Hnd']; subst.
  cbn [distinct].
  destruct (existsb (String.eqb s) seen) eqn:E.
  - apply existsb_eqb_In in E. exfalso. apply (Hfresh s); [now left | exact E].
  - f_equal. apply IH; [exact Hnd'|].
    intros x Hin [<- | Hseen]; [contradiction|].
    apply (Hfresh x); [now right | exact Hseen].
Qed.

Lemma dict_keys_set (V : Type) (d : dict V) k v :
  dict_keys (dict_set d k v)
  = if existsb (String.eqb k) (dict_keys d) then dict_keys d
    else (dict_keys d ++ [k])%list.
Proof.
  induction d as [|[k0 v0] d IH]; [reflexivity|].
  cbn [dict_set dict_keys map fst existsb].
  rewrite (String.eqb_sym k k0).
  destruct (String.eqb k0 k); cbn [orb map fst]; [reflexivity|].
  fold (dict_keys d). fold (dict_keys (dict_set d k v)). rewrite IH.
  destruct (existsb (String.eqb k) (dict_keys d)); reflexivity.
Qed.

Lemma for_servers_keys_order net domain num_queries servers :
  forall results w results' w',
    for_servers net servers domain num_queries results w = (Returned results', w') ->
    dict_keys results'
    = (dict_keys results ++ distinct (dict_keys results) servers)%list.
Proof.
  induction servers as [|s rest IH]; intros results w results' w' Hrun.
  - simpl in Hrun. unfold ret in Hrun. injection Hrun as <- <-.
    simpl. now rewrite app_nil_r.
  - destruct (for_servers_cons_inv _ _ _ _ _ _ _ _ _ Hrun) as (p & w1 & Hp & Hrest).
    clear Hrun. rename Hrest into Hrun.
    rewrite (IH _ _ _ _ Hrun), dict_keys_set. cbn [distinct].
    destruct (existsb (String.eqb s) (dict_keys results)); [reflexivity|].
    rewrite <- app_assoc. cbn [app]. do 2 f_equal.
    apply distinct_ext. intros y. rewrite in_app_iff. simpl. tauto.
Qed.

Lemma benchmark_entries_world net servers domain num_queries w results w' server data :
  benchmark_dns_servers net servers domain num_queries w = (Returned results, w') ->
  dict_get results server = Some data ->
  exists w1 p w2,
    benchmark_pass net server domain num_queries w1 = (Returned p, w2)
    /\ data = result_of_pass p
    /\ reverse_calls w <= reverse_calls w1
    /\ reverse_calls w2 <= reverse_calls w'
    /\ forward_calls w <= forward_calls w1
    /\ forward_calls w2 <= forward_calls w'.
Proof.
  intros Hrun Hget.
  destruct (for_servers_entries_world _ _ _ _ _ _ _ _ _ _ Hrun Hget) as [Hold | [_ H]];
    [discriminate | exact H].
Qed.

Lemma query_error_lines_length net server domain count : forall from,
  Z.of_nat (List.length (query_error_lines net server domain from count))
  = failures net server domain from count.
Proof.
  induction count as [|c IH]; intros from; [reflexivity|].
  rewrite query_error_lines_S, length_app. cbn [failures].
  rewrite Nat2Z.inj_add, IH.
  destruct (forward_failed net server domain from); reflexivity.
Qed.

(** ** Further theorems *)



(** X2.  A pass prints, after what was printed before: one line for the
    reverse lookup, one line for each forward query that failed, in the
    order of the queries, and then the line of the abort if and only if
    the failure counter exceeded 2.  So the lines of a pass are one more
    than the failures of its forward queries, and one more again when it
    was aborted. *)
Theorem pass_output net server domain num_queries w p w' :
  benchmark_pass net server domain num_queries w = (Returned p, w') ->
  let attempts := forward_calls w' - forward_calls w in
  let aborted := (2 <? pass_failure_count p)%Z in
  exists out,
    stdout w' = (stdout w ++ out)%list
    /\ out = (reverse_line net server (reverse_calls w)
              :: query_error_lines net server domain (forward_calls w) attempts
              ++ (if aborted then [skip_line server] else []))%list
    /\ Z.of_nat (List.length out)
       = (1 + failures net server domain (forward_calls w) attempts
          + Z_of_bool aborted)%Z.
Proof.
  intros Hrun attempts aborted.
  destruct (benchmark_pass_trace _ _ _ _ _ _ _ Hrun)
    as (a & Hf & _ & _ & _ & _ & _ & Hout & _).
  assert (Ha : attempts = a) by (unfold attempts; lia). rewrite Ha.
  eexists. split; [exact Hout|]. split; [reflexivity|].
  cbn [List.length]. rewrite length_app, Nat2Z.inj_succ, Nat2Z.inj_add.
  rewrite query_error_lines_length. unfold aborted.
  destruct (2 <? pass_failure_count p)%Z; cbn [List.length Z_of_bool]; lia.
Qed.

Lemma pass_output_witness :
  exists p w',
    benchmark_pass demo_net "0.0.0.0" "example.com" 8 world0 = (Returned p, w')
    /\ stdout w'
       = ["Error resolving name for server 0.0.0.0: timeout";
          "Error querying example.com on 0.0.0.0: timeout";
          "Error querying example.com on 0.0.0.0: timeout";
          "More than 2 Errors attempting to query 0.0.0.0. Skipping."].
Proof.
  eexists _, _.
  destruct (pass_output demo_net "0.0.0.0" "example.com" 8 world0 _ _
              ltac:(run_program)) as (out & Hout & Hlines & _).
  split; [run_program|]. rewrite Hout, Hlines. run_program.
Defined.

(** X3.  A run issues exactly one reverse lookup for each server of the
    list, a server listed twice being looked up and queried again, and at
    most [num_queries] forward queries for each; what was printed before
    the run stays, and every server adds at least one line. *)
Theorem benchmark_call_counts net servers domain num_queries w results w' :
  benchmark_dns_servers net servers domain num_queries w = (Returned results, w') ->
  reverse_calls w' = reverse_calls w + List.length servers
  /\ forward_calls w <= forward_calls w'
  /\ forward_calls w' <= forward_calls w + List.length servers * range_len num_queries
  /\ exists out, stdout w' = (stdout w ++ out)%list
                 /\ List.length servers <= List.length out.
Proof.
  intros Hrun. exact (for_servers_counts _ _ _ _ _ _ _ _ Hrun).
Qed.

Lemma benchmark_call_counts_witness :
  exists results w',
    benchmark_dns_servers demo_net demo_servers "example.com" 3 world0
    = (Returned results, w')
    /\ reverse_calls w' = reverse_calls world0 + List.length demo_servers.
Proof.
  eexists _, _.
  destruct (benchmark_call_counts demo_net demo_servers "example.com" 3 world0 _ _
              ltac:(run_program)) as (Hr & _).
  split; [run_program | exact Hr].
Defined.

(** X4.  A pass that ends without a sample issued at most three forward
    queries, and at most two when the reverse lookup had failed: all the
    queries of the range when these are fewer, and otherwise the three
    (or two) whose failures bring the counter to 3. *)
Theorem failed_pass_cost net server domain num_queries w p w' :
  benchmark_pass net server domain num_queries w = (Returned p, w') ->
  pass_times p = [] ->
  forward_calls w' - forward_calls w
  = Nat.min (range_len num_queries)
      (if reverse_failed net server (reverse_calls w) then 2 else 3).
Proof.
  intros Hrun Hempty.
  destruct (benchmark_pass_inv _ _ _ _ _ _ _ Hrun)
    as (w1 & a & Hfw & _ & _ & Hout & _).
  destruct Hout as (Hf & _ & Ha & Hfc & (new & Hnew & Hlen) & _ & Hall & Hmax).
  rewrite Hempty in Hnew. simpl in Hnew. subst new. simpl in Hlen.
  rewrite Hfw in *.
  destruct (reverse_failed net server (reverse_calls w)); cbn [Z_of_bool] in Hfc;
    destruct (Z_le_gt_dec (pass_failure_count p) 2) as [Hle | Hgt];
    try (specialize (Hall Hle)); lia.
Qed.

Lemma failed_pass_cost_witness :
  exists p w',
    benchmark_pass failing_net "4.2.2.1" "example.com" 8 world0 = (Returned p, w')
    /\ forward_calls w' - forward_calls world0 = 3.
Proof.
  eexists _, _. split; [run_program|].
  rewrite (failed_pass_cost failing_net "4.2.2.1" "example.com" 8 world0 _ _
             ltac:(run_program) ltac:(run_program)).
  run_program.
Defined.

(** X5.  The keys of the result are the servers of the list in the order
    of their first occurrence; for a list without repetition they are the
    list itself. *)
Theorem result_keys_in_order net servers domain num_queries w results w' :
  benchmark_dns_servers net servers domain num_queries w = (Returned results, w') ->
  dict_keys results = distinct [] servers
  /\ (NoDup servers -> dict_keys results = servers).
Proof.
  intros Hrun.
  pose proof (for_servers_keys_order _ _ _ _ _ _ _ _ Hrun) as Hkeys.
  simpl in Hkeys. split; [exact Hkeys|].
  intros Hnd. rewrite Hkeys. apply distinct_of_NoDup; [exact Hnd | auto].
Qed.

Lemma result_keys_in_order_witness :
  exists results w',
    benchmark_dns_servers demo_net demo_servers "example.com" 3 world0
    = (Returned results, w')
    /\ dict_keys results = distinct [] demo_servers.
Proof.
  eexists _, _.
  destruct (result_keys_in_order demo_net demo_servers "example.com" 3 world0 _ _
              ltac:(run_program)) as (Hkeys & _).
  split; [run_program | exact Hkeys].
Defined.

(** X6.  Benchmarking a list followed by further servers is benchmarking
    the list and going on from the world it leaves; the entry of a server
    that does not occur among the further servers is the one the list
    alone gives. *)
Theorem earlier_entries_kept
    net pre post domain num_queries w results1 w1 results w' server :
  benchmark_dns_servers net pre domain num_queries w = (Returned results1, w1) ->
  benchmark_dns_servers net (pre ++ post) domain num_queries w = (Returned results, w') ->
  ~ In server post ->
  for_servers net post domain num_queries results1 w1 = (Returned results, w')
  /\ dict_get results server = dict_get results1 server.
Proof.
  unfold benchmark_dns_servers. intros Hpre Hrun Hnotin.
  rewrite (for_servers_app _ _ _ _ _ _ _ _ _ Hpre) in Hrun.
  split; [exact Hrun|].
  exact (for_servers_untouched _ _ _ _ _ _ _ _ _ Hrun Hnotin).
Qed.

Lemma earlier_entries_kept_witness :
  exists results1 w1 results w',
    benchmark_dns_servers demo_net ["8.8.8.8"] "example.com" 3 world0
    = (Returned results1, w1)
    /\ benchmark_dns_servers demo_net (["8.8.8.8"] ++ ["0.0.0.0"]) "example.com" 3 world0
       = (Returned results, w')
    /\ dict_get results "8.8.8.8" = dict_get results1 "8.8.8.8".
Proof.
  eexists _, _, _, _. split; [run_program|]. split; [run_program|].
  eapply (earlier_entries_kept demo_net ["8.8.8.8"] ["0.0.0.0"] "example.com" 3 world0);
    [run_program | run_program |].
  simpl. intros [H | []]. discriminate H.
Defined.

(** X7.  The name in the record of a server is what one of the reverse
    lookups of the run, for that very server, answered, or "Unknown" when
    that lookup failed. *)
Theorem name_from_reverse_lookup
    net servers domain num_queries w results w' server data :
  benchmark_dns_servers net servers domain num_queries w = (Returned results, w') ->
  dict_get results server = Some data ->
  exists k,
    reverse_calls w <= k < reverse_calls w'
    /\ dict_get data "name"
       = Some (VStr match resolve_address net k server server with
                    | Returned dns_name => dns_name
                    | Raised _ => "Unknown"
                    end).
Proof.
  intros Hrun Hget.
  destruct (benchmark_entries_world _ _ _ _ _ _ _ _ _ Hrun Hget)
    as (w1 & p & w2 & Hp & -> & Hlow & Hhigh & _).
  destruct (benchmark_pass_trace _ _ _ _ _ _ _ Hp)
    as (a & _ & _ & Hr & Hname & _).
  exists (reverse_calls w1). split; [lia|].
  unfold result_of_pass. rewrite make_result_name, Hname. reflexivity.
Qed.

Lemma name_from_reverse_lookup_witness :
  exists results w' data k,
    benchmark_dns_servers demo_net demo_servers "example.com" 3 world0
    = (Returned results, w')
    /\ dict_get results "0.0.0.0" = Some data
    /\ reverse_calls world0 <= k < reverse_calls w'
    /\ dict_get data "name" = Some (VStr "Unknown").
Proof.
  eexists _, _, _.
  destruct (name_from_reverse_lookup
              demo_net demo_servers "example.com" 3 world0 _ _ "0.0.0.0" _
              ltac:(run_program) ltac:(run_program))
    as (k & Hk & Hname).
  exists k. split; [run_program|]. split; [run_program|]. split; [exact Hk | exact Hname].
Defined.

(** ** More on the table *)

Lemma Forall2_nth_error_right (A B : Type) (P : A -> B -> Prop) l l' :
  Forall2 P l l' ->
  forall i b, nth_error l' i = Some b ->
    exists a, nth_error l i = Some a /\ P a b.
Proof.
  induction 1 as [|x y l l' Hxy Hrest IH]; intros i b Hi.
  - destruct i; discriminate.
  - destruct i as [|i]; simpl in *.
    + injection Hi as <-. eauto.
    + eauto.
Qed.

Section MoreDisplayProofs.

Variable repr_float : R -> string.
Variable format_fixed : nat -> R -> string.

Lemma add_rows_columns items : forall t0 t,
  add_rows repr_float format_fixed items t0 = Some t ->
  columns t = columns t0.
Proof.
  induction items as [|[server data] items IH]; intros t0 t Hadd; simpl in Hadd.
  - now injection Hadd as <-.
  - destruct (display_row repr_float format_fixed server data) as [row|];
      [|discriminate].
    now rewrite (IH _ _ Hadd).
Qed.

(** A row has five cells, the first being the server, plain or in the
    error style. *)
Lemma display_row_shape server data row :
  display_row repr_float format_fixed server data = Some row ->
  List.length row = 5
  /\ (nth_error row 0 = Some server
      \/ nth_error row 0 = Some ("[red]" ++ server ++ "[/red]")).
Proof.
  unfold display_row.
  destruct (negb (truthy (dict_get_default data "times" (VList [])))
            || truthy (dict_get_default data "error" (VBool false))).
  - intros H. injection H as <-. split; [reflexivity | now right].
  - destruct (dict_get_default data "name" (VStr "Unknown")); try discriminate.
    destruct (dict_get_default data "times" (VList [])); try discriminate.
    destruct (dict_get_default data "mean" (VFloat 0)); try discriminate.
    destruct (dict_get_default data "stdev" (VFloat 0)); try discriminate.
    intros H. injection H as <-. split; [reflexivity | now left].
Qed.

(** The table of a run: the five columns, and one row for each distinct
    server, in the order of the first occurrences. *)
Lemma table_of_run net servers domain num_queries w results w' :
  benchmark_dns_servers net servers domain num_queries w = (Returned results, w') ->
  exists t,
    display_results repr_float format_fixed results = Some t
    /\ map header (columns t)
       = ["DNS Server"; "DNS Name"; "Response Times (ms)"; "Average (ms)";
          "Std Dev (ms)"]
    /\ List.length (rows t) = List.length (distinct [] servers)
    /\ forall i row,
         nth_error (rows t) i = Some row ->
         List.length row = 5
         /\ exists server,
              nth_error (distinct [] servers) i = Some server
              /\ (nth_error row 0 = Some server
                  \/ nth_error row 0 = Some ("[red]" ++ server ++ "[/red]")).
Proof.
  intros Hrun.
  destruct (display_results_of_benchmark repr_float format_fixed _ _ _ _ _ _ _ Hrun)
    as (t & Ht).
  pose proof (for_servers_keys_order _ _ _ _ _ _ _ _ Hrun) as Hkeys. simpl in Hkeys.
  exists t. split; [exact Ht|]. unfold display_results in Ht.
  rewrite (add_rows_columns _ _ _ Ht).
  destruct (add_rows_rows _ _ _ _ _ Ht) as (cells & Hrows & Hall).
  simpl in Hrows. rewrite Hrows, <- Hkeys.
  split; [reflexivity|]. split.
  - unfold dict_keys. rewrite length_map. symmetry. exact (Forall2_length Hall).
  - intros i row Hi.
    destruct (Forall2_nth_error_right _ _ _ _ _ Hall _ _ Hi)
      as ([server data] & Hitem & Hrow).
    simpl in Hrow. destruct (display_row_shape _ _ _ Hrow) as [Hlen Hfirst].
    split; [exact Hlen|]. exists server. split; [|exact Hfirst].
    unfold dict_keys. rewrite nth_error_map, Hitem. reflexivity.
Qed.

(** X11.  The table of what a run returns can always be built.  It has
    the five columns of the program, one row of five cells for each
    distinct server of the list, in the order of the first occurrences,
    and the first cell of a row is its server, plain or in the error
    style. *)
Theorem table_of_benchmark net servers domain num_queries w results w' :
  benchmark_dns_servers net servers domain num_queries w = (Returned results, w') ->
  exists t,
    display_results repr_float format_fixed results = Some t
    /\ map header (columns t)
       = ["DNS Server"; "DNS Name"; "Response Times (ms)"; "Average (ms)";
          "Std Dev (ms)"]
    /\ List.length (rows t) = List.length (distinct [] servers)
    /\ forall i row,
         nth_error (rows t) i = Some row ->
         List.length row = 5
         /\ exists server,
              nth_error (distinct [] servers) i = Some server
              /\ (nth_error row 0 = Some server
                  \/ nth_error row 0 = Some ("[red]" ++ server ++ "[/red]")).
Proof. intros Hrun. exact (table_of_run _ _ _ _ _ _ _ Hrun). Qed.

(** X12.  A record without the keys "times", "name", "mean" and "stdev"
    gives an error row whatever else it holds, an error flag that is
    false included: the name reads "Unknown" and the mean and the
    standard deviation read "0.0". *)
Theorem row_of_record_without_measurements server data :
  dict_get data "times" = None ->
  dict_get data "name" = None ->
  dict_get data "mean" = None ->
  dict_get data "stdev" = None ->
  display_row repr_float format_fixed server data
  = Some ["[red]" ++ server ++ "[/red]"; "[red]Unknown[/red]";
          "[red]Error on query attempt[/red]"; "[red]0.0[/red]"; "[red]0.0[/red]"].
Proof.
  intros Htimes Hname Hmean Hstdev.
  unfold display_row, dict_get_default.
  rewrite Htimes, Hname, Hmean, Hstdev.
  cbn [truthy negb orb]. unfold red_string, py_str.
  rewrite float_str_zero. reflexivity.
Qed.

(** X14.  Run as a script, provided every resolver can be created and
    accepts each server of the list as its nameserver, then whatever the
    resolutions answer the program returns a table of seventeen rows, one
    for each server of its list and in the order of the list, after
    seventeen reverse lookups and at most 136 forward queries. *)
Theorem main_table net w :
  (forall k, new_resolver net k = Returned tt) ->
  (forall k server, In server main_servers ->
     set_nameservers net k server = Returned tt) ->
  exists t w',
    main repr_float format_fixed net w = (Returned (Some t), w')
    /\ List.length (rows t) = 17
    /\ reverse_calls w' = reverse_calls w + 17
    /\ forward_calls w' <= forward_calls w + 136
    /\ forall i row,
         nth_error (rows t) i = Some row ->
         exists server,
           nth_error main_servers i = Some server
           /\ (nth_error row 0 = Some server
               \/ nth_error row 0 = Some ("[red]" ++ server ++ "[/red]")).
Proof.
  intros Hnew Hset.
  destruct (for_servers_returns net "apple.com" default_num_queries main_servers
              Hnew Hset [] w)
    as (results & w' & Hrun).
  fold (benchmark_dns_servers net main_servers "apple.com" default_num_queries) in Hrun.
  destruct (table_of_run _ _ _ _ _ _ _ Hrun) as (t & Ht & _ & Hlen & Hrows).
  destruct (for_servers_counts _ _ _ _ _ _ _ _ Hrun) as (Hr & _ & Hf & _).
  assert (Hdistinct : distinct [] main_servers = main_servers) by reflexivity.
  rewrite Hdistinct in *.
  exists t, w'. split; [|split; [exact Hlen | split; [exact Hr | split]]].
  - unfold main, bind. rewrite Hrun, <- Ht. reflexivity.
  - exact Hf.
  - intros i row Hi. destruct (Hrows i row Hi) as (_ & H). exact H.
Qed.

End MoreDisplayProofs.

Lemma table_of_benchmark_witness :
  exists results w' t,
    benchmark_dns_servers demo_net demo_servers "example.com" 3 world0
    = (Returned results, w')
    /\ display_results demo_repr_float demo_format_fixed results = Some t
    /\ List.length (rows t) = List.length (distinct [] demo_servers).
Proof.
  eexists _, _.
  destruct (table_of_benchmark demo_repr_float demo_format_fixed
              demo_net demo_servers "example.com" 3 world0 _ _ ltac:(run_program))
    as (t & Ht & _ & Hlen & _).
  exists t. split; [run_program|]. split; [exact Ht | exact Hlen].
Defined.

Lemma row_of_record_without_measurements_witness :
  display_row demo_repr_float demo_format_fixed "1.1.1.1" [("error", VBool false)]
  = Some ["[red]" ++ "1.1.1.1" ++ "[/red]"; "[red]Unknown[/red]";
          "[red]Error on query attempt[/red]"; "[red]0.0[/red]"; "[red]0.0[/red]"].
Proof.
  apply (row_of_record_without_measurements demo_repr_float demo_format_fixed
           "1.1.1.1" [("error", VBool false)]); reflexivity.
Defined.

Lemma main_table_witness :
  exists t w',
    main demo_repr_float demo_format_fixed demo_net world0 = (Returned (Some t), w')
    /\ List.length (rows t) = 17
    /\ reverse_calls w' = reverse_calls world0 + 17.
Proof.
  destruct (main_table demo_repr_float demo_format_fixed demo_net world0)
    as (t & w' & Hmain & Hlen & Hr & _).
  - intros k. reflexivity.
  - intros k server Hin. reflexivity.
  - exists t, w'. split; [exact Hmain|]. split; [exact Hlen | exact Hr].
Defined.
